(** * Blob test suite of the engine simulator: versioned hashes, the test
      transaction pool, the node transaction verifier, the step sequencer
      and the static test table.

    Shallow embedding of
    - [simulators/ethereum/engine/helper/blobs.go]
    - [simulators/ethereum/engine/suites/blobs/helpers.go]
      (pool, verifier, test table [Tests], [BlobsBaseSpec.Execute]). *)

From Stdlib Require Import ZArith List Lia Sorting.Sorted.
From Stdlib Require Import Strings.Byte Strings.Ascii.
From stdpp Require Import base numbers option list strings gmap fin_maps.

Local Open Scope Z_scope.

(* ===================================================================== *)
(** * Go values shared by the packages below                              *)
(* ===================================================================== *)

(** Go's [byte]: exactly the 256 values of [Byte.byte]. *)
Abbreviation byte := Byte.byte.

#[global] Instance byte_eq_dec : EqDecision byte := Byte.byte_eq_dec.
#[global] Instance byte_countable : Countable byte :=
  inj_countable Byte.to_N Byte.of_N Byte.of_to_N.

(** Byte addition as Go computes it on [uint8] operands: modulo 256. *)
Definition byte_add (a b : byte) : byte :=
  match Byte.of_N ((Byte.to_N a + Byte.to_N b) mod 256)%N with
  | Some c => c
  | None => x00
  end.

(** [uint64] arithmetic wraps modulo 2^64. *)
Definition u64 (z : Z) : Z := z mod 2 ^ 64.
(** Conversion of a 64-bit pattern to the signed [int64]. *)
Definition i64 (z : Z) : Z := (z + 2 ^ 63) mod 2 ^ 64 - 2 ^ 63.

(** ** go-ethereum [common] *)
Module common.

Definition HashLength : nat := 32.

(** [common.Hash] is [[32]byte], [common.Address] is [[20]byte]. *)
Abbreviation Hash := (list byte) (only parsing).
Abbreviation Address := (list byte) (only parsing).

(** The zero value of [Hash]. *)
Definition zeroHash : Hash := replicate HashLength x00.

(** [h.SetBytes(b)] on a zero [h]: a [b] longer than the hash is cropped
    from the left, a shorter one is right-aligned. *)
Definition SetBytes (b : list byte) : Hash :=
  let b := if decide (HashLength < length b)%nat
           then drop (length b - HashLength) b else b in
  replicate (HashLength - length b) x00 ++ b.

Definition BytesToHash (b : list byte) : Hash := SetBytes b.

End common.

(** ** go-ethereum [core/types]: access lists *)
Module types.

(** [StorageKeys] is a slice: [None] is the nil slice, which
    [reflect.DeepEqual] tells apart from an empty one. *)
Record AccessTuple := {
  Address : common.Address;
  StorageKeys : option (list common.Hash)
}.

#[global] Instance AccessTuple_eq_dec : EqDecision AccessTuple.
Proof. solve_decision. Defined.

Abbreviation AccessList := (list AccessTuple) (only parsing).

End types.

(** ** Errors

    [errors.New] keeps its text; [fmt.Errorf] keeps the format string and
    the operands it was given, in order. *)
Inductive fmt_arg :=
| ArgUint (v : Z)                               (* %d of a uint64 / uint8 *)
| ArgBig (v : Z)                                (* %d of a *big.Int *)
| ArgString (s : string)                        (* %s *)
| ArgAccessList (al : option types.AccessList)  (* %v *)
| ArgHashes (hs : option (list common.Hash))    (* %v *).

Inductive error :=
| errors_New (text : string)
| fmt_Errorf (format : string) (args : list fmt_arg).

(** ** go-ethereum [beacon/engine] *)
Module api.

(** Slices are [option (list _)]: [None] is nil. *)
Record BlobsBundle := {
  Commitments : option (list (list byte));
  Blobs : option (list (list byte));
  Proofs : option (list (list byte))
}.

End api.

(* ===================================================================== *)
(** * Package [helper] (blobs.go)                                         *)
(* ===================================================================== *)
Module helper.

Abbreviation BlobID := Z (only parsing).

(** The field of [CustomPayloadData] that the test table sets, a
    [*uint64]. *)
Record CustomPayloadData := {
  DataGasUsed : option Z
}.

Section VersionedHashes.

(** [crypto/sha256.Sum256], of Go's standard library; it returns
    [[32]byte]. *)
Variable Sum256 : list byte -> list byte.

(** Body of the loop at index [i]:
    [common.BytesToHash(append([]byte{commitmentVersion}, sha256Hash[1:]...))]. *)
Definition versionedHash (commitmentVersion : byte) (commitment : list byte)
  : common.Hash :=
  let sha256Hash := Sum256 commitment in
  common.BytesToHash ([commitmentVersion] ++ drop 1 sha256Hash).

(** [for i, commitment := range bb.Commitments { versionedHashes[i] = ... }],
    started at index [i] with the commitments left to visit. *)
Fixpoint rangeCommitments (commitmentVersion : byte) (i : nat)
    (commitments : list (list byte)) (versionedHashes : list common.Hash)
  : list common.Hash :=
  match commitments with
  | [] => versionedHashes
  | commitment :: rest =>
      rangeCommitments commitmentVersion (S i) rest
        (<[i := versionedHash commitmentVersion commitment]> versionedHashes)
  end.

Definition VersionedHashesFromBlobBundle (bb : option api.BlobsBundle)
    (commitmentVersion : byte) : option (list common.Hash) * option error :=
  match bb with
  | None => (None, Some (errors_New "nil blob bundle"))
  | Some bb =>
      match api.Commitments bb with
      | None => (None, Some (errors_New "nil commitments"))
      | Some commitments =>
          let versionedHashes :=
            replicate (length commitments) common.zeroHash in
          (Some (rangeCommitments commitmentVersion 0 commitments versionedHashes),
           None)
      end
  end.

End VersionedHashes.

End helper.

(* ===================================================================== *)
(** * [crypto/sha256]

    SHA-256 as FIPS 180-4 defines it, on 32-bit words held in [Z].  It is
    the hash that [sha256.Sum256] computes; the theorems about versioned
    hashes hold for any function with 32-byte results and are run on this
    one. *)
(* ===================================================================== *)
Module sha256.

Definition w32 (x : Z) : Z := x mod 2 ^ 32.
Definition add32 (x y : Z) : Z := w32 (x + y).
Definition rotr (n x : Z) : Z := w32 (Z.lor (Z.shiftr x n) (Z.shiftl x (32 - n))).
Definition shr (n x : Z) : Z := Z.shiftr x n.
Definition not32 (x : Z) : Z := 2 ^ 32 - 1 - x.

Definition Ch (x y z : Z) : Z := Z.lxor (Z.land x y) (Z.land (not32 x) z).
Definition Maj (x y z : Z) : Z :=
  Z.lxor (Z.lxor (Z.land x y) (Z.land x z)) (Z.land y z).
Definition Sigma0 (x : Z) : Z := Z.lxor (Z.lxor (rotr 2 x) (rotr 13 x)) (rotr 22 x).
Definition Sigma1 (x : Z) : Z := Z.lxor (Z.lxor (rotr 6 x) (rotr 11 x)) (rotr 25 x).
Definition sigma0 (x : Z) : Z := Z.lxor (Z.lxor (rotr 7 x) (rotr 18 x)) (shr 3 x).
Definition sigma1 (x : Z) : Z := Z.lxor (Z.lxor (rotr 17 x) (rotr 19 x)) (shr 10 x).

(** The first 64 primes. *)
Definition primes : list Z := [
  2; 3; 5; 7; 11; 13; 17; 19; 23; 29; 31; 37; 41; 43; 47; 53;
  59; 61; 67; 71; 73; 79; 83; 89; 97; 101; 103; 107; 109; 113; 127; 131;
  137; 139; 149; 151; 157; 163; 167; 173; 179; 181; 191; 193; 197; 199; 211; 223;
  227; 229; 233; 239; 241; 251; 257; 263; 269; 271; 277; 281; 283; 293; 307; 311
].

(** The integer part of the cube root, by bisection: the answer lies in
    [[lo, hi)]. *)
Fixpoint cbrtBetween (fuel : nat) (n lo hi : Z) : Z :=
  match fuel with
  | O => lo
  | S fuel =>
      let mid := (lo + hi) / 2 in
      if mid * mid * mid <=? n
      then cbrtBetween fuel n mid hi
      else cbrtBetween fuel n lo mid
  end.

(** The first 32 bits of the fractional part of the cube root of [p]. *)
Definition fracCbrt (p : Z) : Z := w32 (cbrtBetween 40 (p * 2 ^ 96) 0 (2 ^ 36)).

(** The first 32 bits of the fractional part of the square root of [p]. *)
Definition fracSqrt (p : Z) : Z := w32 (Z.sqrt (p * 2 ^ 64)).

(** Round constants: from the cube roots of the first 64 primes. *)
Definition K : list Z := Eval vm_compute in map fracCbrt primes.

Definition state : Type := Z * Z * Z * Z * Z * Z * Z * Z.

(** Initial hash value: from the square roots of the first 8 primes. *)
Definition init : state :=
  (fracSqrt 2, fracSqrt 3, fracSqrt 5, fracSqrt 7,
   fracSqrt 11, fracSqrt 13, fracSqrt 17, fracSqrt 19).

(** The [width] low bytes of [x], big-endian. *)
Definition be (width : nat) (x : Z) : list Z :=
  map (fun i => (Z.shiftr x (8 * Z.of_nat i)) mod 256) (rev (seq 0 width)).

(** Padding: the bit 1, zeros up to 56 modulo 64, the bit length on 8
    bytes, big-endian. *)
Definition pad (msg : list Z) : list Z :=
  let len := Z.of_nat (length msg) in
  let zeros := Z.to_nat ((55 - len) mod 64) in
  msg ++ [128] ++ replicate zeros 0 ++ be 8 (8 * len).

(** The big-endian word of the bytes [bs]. *)
Definition word (bs : list Z) : Z :=
  fold_left (fun acc b => acc * 256 + b) bs 0.

(** The 16 words of a 64-byte block. *)
Fixpoint words (n : nat) (block : list Z) : list Z :=
  match n with
  | O => []
  | S n => word (take 4 block) :: words n (drop 4 block)
  end.

(** Message schedule: [w] holds W_0 .. W_(t-1); [n] more words follow. *)
Fixpoint schedule (n : nat) (w : list Z) : list Z :=
  match n with
  | O => w
  | S n =>
      let t := length w in
      let at_ (i : nat) := nth (t - i) w 0 in
      schedule n
        (w ++ [add32 (add32 (sigma1 (at_ 2%nat)) (at_ 7%nat))
                     (add32 (sigma0 (at_ 15%nat)) (at_ 16%nat))])
  end.

Definition round (st : state) (kw : Z * Z) : state :=
  let '(a, b, c, d, e, f, g, h) := st in
  let t1 := add32 (add32 (add32 h (Sigma1 e)) (add32 (Ch e f g) (fst kw))) (snd kw) in
  let t2 := add32 (Sigma0 a) (Maj a b c) in
  (add32 t1 t2, a, b, c, add32 d t1, e, f, g).

Definition compress (st : state) (block : list Z) : state :=
  let w := schedule 48 (words 16 block) in
  let '(a, b, c, d, e, f, g, h) := fold_left round (zip K w) st in
  let '(a0, b0, c0, d0, e0, f0, g0, h0) := st in
  (add32 a0 a, add32 b0 b, add32 c0 c, add32 d0 d,
   add32 e0 e, add32 f0 f, add32 g0 g, add32 h0 h).

Fixpoint blocks (n : nat) (st : state) (data : list Z) : state :=
  match n with
  | O => st
  | S n => blocks n (compress st (take 64 data)) (drop 64 data)
  end.

Definition toByte (x : Z) : byte :=
  match Byte.of_N (Z.to_N x) with
  | Some b => b
  | None => x00
  end.

Definition digest (st : state) : list byte :=
  let '(a, b, c, d, e, f, g, h) := st in
  map toByte (be 4 a ++ be 4 b ++ be 4 c ++ be 4 d ++
              be 4 e ++ be 4 f ++ be 4 g ++ be 4 h).

Definition Sum256 (data : list byte) : list byte :=
  let padded := pad (map (fun b => Z.of_N (Byte.to_N b)) data) in
  digest (blocks (length padded / 64) init padded).

End sha256.

(* ===================================================================== *)
(** * Collaborators of package [suite_blobs]                              *)
(* ===================================================================== *)

(** ** [math/big]: a [*big.Int] read through a getter is its value. *)
Module big.

(** [x.Cmp(y)]: -1, 0 or +1. *)
Definition Cmp (x y : Z) : Z :=
  match x ?= y with
  | Lt => -1
  | Eq => 0
  | Gt => 1
  end.

(** [big.NewInt(v)] stored in a [*big.Int] field; [None] is the nil
    pointer of a field left out of a literal. *)
Definition NewInt (v : Z) : option Z := Some v.

End big.

(** ** [encoding/hex] *)
Module hex.

Definition hextable : string := "0123456789abcdef".

Definition digit (n : N) : Ascii.ascii :=
  match Stdlib.Strings.String.get (N.to_nat n) hextable with
  | Some c => c
  | None => "0"%char
  end.

Fixpoint EncodeToString (src : list byte) : string :=
  match src with
  | [] => EmptyString
  | v :: rest =>
      String (digit (Byte.to_N v / 16)%N)
        (String (digit (Byte.to_N v mod 16)%N) (EncodeToString rest))
  end.

(** The value of a lower-case hex digit. *)
Definition undigit (c : Ascii.ascii) : N :=
  let n := Ascii.N_of_ascii c in
  (if n <? 58 then n - 48 else n - 87)%N.

End hex.

(** ** The transaction interface [e_typ.Transaction]

    A transaction is what its getters return.  Pointers and slices that the
    verifier tests against nil are options; the [*big.Int] getters always
    return a number. *)
Module e_typ.

Record Transaction := {
  Hash : common.Hash;
  Nonce : Z;
  Gas : Z;
  GasPrice : Z;
  Value : Z;
  To : option common.Address;
  Data : option (list byte);
  AccessList : option types.AccessList;
  ChainId : Z;
  BlobGas : Z;
  GasFeeCap : Z;
  GasTipCap : Z;
  BlobGasFeeCap : Z;
  BlobHashes : option (list common.Hash);
  Type_ : Z
}.

#[global] Instance Transaction_eq_dec : EqDecision Transaction.
Proof. solve_decision. Defined.

End e_typ.

(** ** The node capability [client.Eth] *)
Module client.

(** [TransactionByHash(ctx, hash)] returns [(tx, isPending, err)]: either
    the error, or the transaction with its pending flag. *)
Record Eth := {
  TransactionByHash : common.Hash -> (e_typ.Transaction * bool) + error
}.

End client.

(** ** Package [test]: what the suite uses of it *)
Module test.

(** Modelled from the spec: the status classification a payload
    submission is expected to report (Valid / Invalid / Syncing and the
    like); its declaration belongs to package [test], whose zero value is
    the unset status. *)
Inductive PayloadStatus := Unknown | Valid | Invalid | Accepted | Syncing.

#[global] Instance PayloadStatus_eq_dec : EqDecision PayloadStatus.
Proof. solve_decision. Defined.

(** The fields of [test.Spec] that the table sets. *)
Record Spec := {
  Name : string;
  About : string
}.

(** The part of the consensus-layer mock that [Execute] writes:
    a [time.Duration], in nanoseconds. *)
Record CLMocker := {
  PayloadProductionClientDelay : Z
}.

Record Env := {
  CLMock : CLMocker
}.

End test.

Module time.
Definition Second : Z := 1000000000.
(** [time.Duration(v) * time.Second] for a [uint64] [v]: conversion to
    [int64], then a wrapping [int64] product. *)
Definition Seconds (v : Z) : Z := i64 (i64 v * Second).
End time.

(* ===================================================================== *)
(** * Package [suite_blobs] (helpers.go): pool and verifier               *)
(* ===================================================================== *)
Module suite_blobs.

(** ** Go maps

    A map value is [None] when nil.  Reading a nil map finds nothing;
    assigning into it panics ([None] result). *)
Section GoMap.
Context {K V : Type} `{Countable K}.

Definition map_index (m : option (gmap K V)) (k : K) : option V :=
  match m with
  | None => None
  | Some m => m !! k
  end.

Definition map_assign (m : option (gmap K V)) (k : K) (v : V)
  : option (gmap K V) :=
  match m with
  | None => None          (* panic: assignment to entry in nil map *)
  | Some m => Some (<[k := v]> m)
  end.
End GoMap.

Record TestBlobTxPool := {
  Transactions : option (gmap common.Hash e_typ.Transaction)
}.

(** [new(TestBlobTxPool)] *)
Definition new_TestBlobTxPool : TestBlobTxPool := {| Transactions := None |}.

(** [AddBlobTransaction]: the pool after the call, or [None] if the call
    panics. *)
Definition AddBlobTransaction (pool : TestBlobTxPool) (tx : e_typ.Transaction)
  : option TestBlobTxPool :=
  let pool :=
    match Transactions pool with
    | None => {| Transactions := Some ∅ |}   (* make(map[...]...) *)
    | Some _ => pool
    end in
  match map_assign (Transactions pool) (e_typ.Hash tx) tx with
  | None => None
  | Some m => Some {| Transactions := Some m |}
  end.

(** [pool.Transactions[hash]] with its found flag. *)
Definition poolLookup (pool : TestBlobTxPool) (hash : common.Hash)
  : option e_typ.Transaction :=
  map_index (Transactions pool) hash.

(** ** [VerifyTransactionFromNode] *)

(** [if cond { return err }] *)
Definition failIf (cond : bool) (err : error) : option error :=
  if cond then Some err else None.

(** A run of such statements returns at the first one that fires and
    nil after the last. *)
Fixpoint firstError (checks : list (option error)) : option error :=
  match checks with
  | [] => None
  | Some err :: _ => Some err
  | None :: rest => firstError rest
  end.

(** [a != nil && b != nil && differ(a, b)] *)
Definition bothSetAnd {A} (differ : A -> A -> bool) (a b : option A) : bool :=
  match a, b with
  | Some x, Some y => differ x y
  | _, _ => false
  end.

Section Verify.

(** [common.Address.Hex], the checksummed hex string of an address. *)
Variable Hex : common.Address -> string.

Definition optHex (a : option common.Address) : string :=
  match a with
  | Some a => Hex a
  | None => ""
  end.

Definition optEncode (d : option (list byte)) : string :=
  match d with
  | Some d => hex.EncodeToString d
  | None => ""
  end.

(** The statements after "Verify that the tx fields are all the same". *)
Definition compareTxFields (returnedTx tx : e_typ.Transaction) : option error :=
  firstError [
    failIf (bool_decide (e_typ.Nonce returnedTx ≠ e_typ.Nonce tx))
      (fmt_Errorf "nonce mismatch: %d != %d"
         [ArgUint (e_typ.Nonce returnedTx); ArgUint (e_typ.Nonce tx)]);
    failIf (bool_decide (e_typ.Gas returnedTx ≠ e_typ.Gas tx))
      (fmt_Errorf "gas mismatch: %d != %d"
         [ArgUint (e_typ.Gas returnedTx); ArgUint (e_typ.Gas tx)]);
    failIf (bool_decide (big.Cmp (e_typ.GasPrice returnedTx) (e_typ.GasPrice tx) ≠ 0))
      (fmt_Errorf "gas price mismatch: %d != %d"
         [ArgBig (e_typ.GasPrice returnedTx); ArgBig (e_typ.GasPrice tx)]);
    failIf (bool_decide (big.Cmp (e_typ.Value returnedTx) (e_typ.Value tx) ≠ 0))
      (fmt_Errorf "value mismatch: %d != %d"
         [ArgBig (e_typ.Value returnedTx); ArgBig (e_typ.Value tx)]);
    failIf (bothSetAnd (fun a b => bool_decide (Hex a ≠ Hex b))
              (e_typ.To returnedTx) (e_typ.To tx))
      (fmt_Errorf "to mismatch: %s != %s"
         [ArgString (optHex (e_typ.To returnedTx)); ArgString (optHex (e_typ.To tx))]);
    failIf (bothSetAnd (fun a b => negb (bool_decide (a = b)))
              (e_typ.Data returnedTx) (e_typ.Data tx))
      (fmt_Errorf "data mismatch: %s != %s"
         [ArgString (optEncode (e_typ.Data returnedTx));
          ArgString (optEncode (e_typ.Data tx))]);
    failIf (bothSetAnd (fun a b => negb (bool_decide (a = b)))
              (e_typ.AccessList returnedTx) (e_typ.AccessList tx))
      (fmt_Errorf "access list mismatch: %v != %v"
         [ArgAccessList (e_typ.AccessList returnedTx);
          ArgAccessList (e_typ.AccessList tx)]);
    failIf (bool_decide (big.Cmp (e_typ.ChainId returnedTx) (e_typ.ChainId tx) ≠ 0))
      (fmt_Errorf "chain id mismatch: %d != %d"
         [ArgBig (e_typ.ChainId returnedTx); ArgBig (e_typ.ChainId tx)]);
    failIf (bool_decide (e_typ.BlobGas returnedTx ≠ e_typ.BlobGas tx))
      (fmt_Errorf "data gas mismatch: %d != %d"
         [ArgUint (e_typ.BlobGas returnedTx); ArgUint (e_typ.BlobGas tx)]);
    failIf (bool_decide (big.Cmp (e_typ.GasFeeCap returnedTx) (e_typ.GasFeeCap tx) ≠ 0))
      (fmt_Errorf "max fee per gas mismatch: %d != %d"
         [ArgBig (e_typ.GasFeeCap returnedTx); ArgBig (e_typ.GasFeeCap tx)]);
    failIf (bool_decide (big.Cmp (e_typ.GasTipCap returnedTx) (e_typ.GasTipCap tx) ≠ 0))
      (fmt_Errorf "max priority fee per gas mismatch: %d != %d"
         [ArgBig (e_typ.GasTipCap returnedTx); ArgBig (e_typ.GasTipCap tx)]);
    failIf (bool_decide (big.Cmp (e_typ.BlobGasFeeCap returnedTx)
                           (e_typ.BlobGasFeeCap tx) ≠ 0))
      (fmt_Errorf "max fee per data gas mismatch: %d != %d"
         [ArgBig (e_typ.BlobGasFeeCap returnedTx); ArgBig (e_typ.BlobGasFeeCap tx)]);
    failIf (bothSetAnd (fun a b => negb (bool_decide (a = b)))
              (e_typ.BlobHashes returnedTx) (e_typ.BlobHashes tx))
      (fmt_Errorf "blob versioned hashes mismatch: %v != %v"
         [ArgHashes (e_typ.BlobHashes returnedTx); ArgHashes (e_typ.BlobHashes tx)]);
    failIf (bool_decide (e_typ.Type_ returnedTx ≠ e_typ.Type_ tx))
      (fmt_Errorf "type mismatch: %d != %d"
         [ArgUint (e_typ.Type_ returnedTx); ArgUint (e_typ.Type_ tx)])
  ].

Definition VerifyTransactionFromNode (eth : client.Eth) (tx : e_typ.Transaction)
  : option error :=
  match client.TransactionByHash eth (e_typ.Hash tx) with
  | inr err => Some err
  | inl (returnedTx, _) => compareTxFields returnedTx tx
  end.

(** *** The verifier's contract, field by field

    The fields in the order the verifier visits them, the name each
    message opens with, the verb that prints its operands, and the
    operand taken from a transaction. *)
Inductive TxField :=
| FieldNonce | FieldGas | FieldGasPrice | FieldValue | FieldTo | FieldData
| FieldAccessList | FieldChainId | FieldBlobGas | FieldGasFeeCap
| FieldGasTipCap | FieldBlobGasFeeCap | FieldBlobHashes | FieldType.

#[global] Instance TxField_eq_dec : EqDecision TxField.
Proof. solve_decision. Defined.

Definition txFields : list TxField :=
  [FieldNonce; FieldGas; FieldGasPrice; FieldValue; FieldTo; FieldData;
   FieldAccessList; FieldChainId; FieldBlobGas; FieldGasFeeCap;
   FieldGasTipCap; FieldBlobGasFeeCap; FieldBlobHashes; FieldType].

Definition fieldLabel (f : TxField) : string :=
  match f with
  | FieldNonce => "nonce"
  | FieldGas => "gas"
  | FieldGasPrice => "gas price"
  | FieldValue => "value"
  | FieldTo => "to"
  | FieldData => "data"
  | FieldAccessList => "access list"
  | FieldChainId => "chain id"
  | FieldBlobGas => "data gas"
  | FieldGasFeeCap => "max fee per gas"
  | FieldGasTipCap => "max priority fee per gas"
  | FieldBlobGasFeeCap => "max fee per data gas"
  | FieldBlobHashes => "blob versioned hashes"
  | FieldType => "type"
  end.

Definition fieldVerb (f : TxField) : string :=
  match f with
  | FieldTo | FieldData => "%s"
  | FieldAccessList | FieldBlobHashes => "%v"
  | _ => "%d"
  end.

Definition fieldOperand (f : TxField) (tx : e_typ.Transaction) : fmt_arg :=
  match f with
  | FieldNonce => ArgUint (e_typ.Nonce tx)
  | FieldGas => ArgUint (e_typ.Gas tx)
  | FieldGasPrice => ArgBig (e_typ.GasPrice tx)
  | FieldValue => ArgBig (e_typ.Value tx)
  | FieldTo => ArgString (optHex (e_typ.To tx))
  | FieldData => ArgString (optEncode (e_typ.Data tx))
  | FieldAccessList => ArgAccessList (e_typ.AccessList tx)
  | FieldChainId => ArgBig (e_typ.ChainId tx)
  | FieldBlobGas => ArgUint (e_typ.BlobGas tx)
  | FieldGasFeeCap => ArgBig (e_typ.GasFeeCap tx)
  | FieldGasTipCap => ArgBig (e_typ.GasTipCap tx)
  | FieldBlobGasFeeCap => ArgBig (e_typ.BlobGasFeeCap tx)
  | FieldBlobHashes => ArgHashes (e_typ.BlobHashes tx)
  | FieldType => ArgUint (e_typ.Type_ tx)
  end.

(** The message for field [f]: its name, then both values, the fetched
    transaction's first. *)
Definition mismatchReport (f : TxField) (returnedTx tx : e_typ.Transaction) : error :=
  fmt_Errorf (fieldLabel f ++ " mismatch: " ++ fieldVerb f ++ " != " ++ fieldVerb f)
    [fieldOperand f returnedTx; fieldOperand f tx].

(** Field [f] differs between the two transactions. *)
Definition fieldDiffers (f : TxField) (returnedTx tx : e_typ.Transaction) : Prop :=
  match f with
  | FieldNonce => e_typ.Nonce returnedTx <> e_typ.Nonce tx
  | FieldGas => e_typ.Gas returnedTx <> e_typ.Gas tx
  | FieldGasPrice => e_typ.GasPrice returnedTx <> e_typ.GasPrice tx
  | FieldValue => e_typ.Value returnedTx <> e_typ.Value tx
  | FieldTo => e_typ.To returnedTx <> e_typ.To tx
  | FieldData => e_typ.Data returnedTx <> e_typ.Data tx
  | FieldAccessList => e_typ.AccessList returnedTx <> e_typ.AccessList tx
  | FieldChainId => e_typ.ChainId returnedTx <> e_typ.ChainId tx
  | FieldBlobGas => e_typ.BlobGas returnedTx <> e_typ.BlobGas tx
  | FieldGasFeeCap => e_typ.GasFeeCap returnedTx <> e_typ.GasFeeCap tx
  | FieldGasTipCap => e_typ.GasTipCap returnedTx <> e_typ.GasTipCap tx
  | FieldBlobGasFeeCap => e_typ.BlobGasFeeCap returnedTx <> e_typ.BlobGasFeeCap tx
  | FieldBlobHashes => e_typ.BlobHashes returnedTx <> e_typ.BlobHashes tx
  | FieldType => e_typ.Type_ returnedTx <> e_typ.Type_ tx
  end.

(** Field [f] is nil in neither transaction; fields that cannot be nil
    are always set. *)
Definition fieldSet (f : TxField) (returnedTx tx : e_typ.Transaction) : Prop :=
  match f with
  | FieldTo => is_Some (e_typ.To returnedTx) /\ is_Some (e_typ.To tx)
  | FieldData => is_Some (e_typ.Data returnedTx) /\ is_Some (e_typ.Data tx)
  | FieldAccessList =>
      is_Some (e_typ.AccessList returnedTx) /\ is_Some (e_typ.AccessList tx)
  | FieldBlobHashes =>
      is_Some (e_typ.BlobHashes returnedTx) /\ is_Some (e_typ.BlobHashes tx)
  | _ => True
  end.

(** The test that the verifier makes for field [f]. *)
Definition fieldCheck (f : TxField) (returnedTx tx : e_typ.Transaction) : bool :=
  match f with
  | FieldNonce => bool_decide (e_typ.Nonce returnedTx ≠ e_typ.Nonce tx)
  | FieldGas => bool_decide (e_typ.Gas returnedTx ≠ e_typ.Gas tx)
  | FieldGasPrice =>
      bool_decide (big.Cmp (e_typ.GasPrice returnedTx) (e_typ.GasPrice tx) ≠ 0)
  | FieldValue =>
      bool_decide (big.Cmp (e_typ.Value returnedTx) (e_typ.Value tx) ≠ 0)
  | FieldTo =>
      bothSetAnd (fun a b => bool_decide (Hex a ≠ Hex b))
        (e_typ.To returnedTx) (e_typ.To tx)
  | FieldData =>
      bothSetAnd (fun a b => negb (bool_decide (a = b)))
        (e_typ.Data returnedTx) (e_typ.Data tx)
  | FieldAccessList =>
      bothSetAnd (fun a b => negb (bool_decide (a = b)))
        (e_typ.AccessList returnedTx) (e_typ.AccessList tx)
  | FieldChainId =>
      bool_decide (big.Cmp (e_typ.ChainId returnedTx) (e_typ.ChainId tx) ≠ 0)
  | FieldBlobGas => bool_decide (e_typ.BlobGas returnedTx ≠ e_typ.BlobGas tx)
  | FieldGasFeeCap =>
      bool_decide (big.Cmp (e_typ.GasFeeCap returnedTx) (e_typ.GasFeeCap tx) ≠ 0)
  | FieldGasTipCap =>
      bool_decide (big.Cmp (e_typ.GasTipCap returnedTx) (e_typ.GasTipCap tx) ≠ 0)
  | FieldBlobGasFeeCap =>
      bool_decide (big.Cmp (e_typ.BlobGasFeeCap returnedTx)
                     (e_typ.BlobGasFeeCap tx) ≠ 0)
  | FieldBlobHashes =>
      bothSetAnd (fun a b => negb (bool_decide (a = b)))
        (e_typ.BlobHashes returnedTx) (e_typ.BlobHashes tx)
  | FieldType => bool_decide (e_typ.Type_ returnedTx ≠ e_typ.Type_ tx)
  end.

End Verify.

(** An injective stand-in for [Address.Hex]: ["0x"] and the lower-case hex
    digits, without the checksum's capitals. *)
Definition plainHex (a : common.Address) : string :=
  "0x" ++ hex.EncodeToString a.

(** Two transactions that differ in their destination only: the fetched
    one has none. *)
Definition localTx : e_typ.Transaction := {|
  e_typ.Hash := replicate 32 xaa;
  e_typ.Nonce := 7;
  e_typ.Gas := 21000;
  e_typ.GasPrice := 1000000000;
  e_typ.Value := 1;
  e_typ.To := Some (replicate 20 x11);
  e_typ.Data := Some [];
  e_typ.AccessList := Some [];
  e_typ.ChainId := 7;
  e_typ.BlobGas := 131072;
  e_typ.GasFeeCap := 1000000000;
  e_typ.GasTipCap := 1000000000;
  e_typ.BlobGasFeeCap := 1;
  e_typ.BlobHashes := Some [x01 :: replicate 31 x22];
  e_typ.Type_ := 3
|}.

Definition fetchedTxNoTo : e_typ.Transaction := {|
  e_typ.Hash := e_typ.Hash localTx;
  e_typ.Nonce := e_typ.Nonce localTx;
  e_typ.Gas := e_typ.Gas localTx;
  e_typ.GasPrice := e_typ.GasPrice localTx;
  e_typ.Value := e_typ.Value localTx;
  e_typ.To := None;
  e_typ.Data := e_typ.Data localTx;
  e_typ.AccessList := e_typ.AccessList localTx;
  e_typ.ChainId := e_typ.ChainId localTx;
  e_typ.BlobGas := e_typ.BlobGas localTx;
  e_typ.GasFeeCap := e_typ.GasFeeCap localTx;
  e_typ.GasTipCap := e_typ.GasTipCap localTx;
  e_typ.BlobGasFeeCap := e_typ.BlobGasFeeCap localTx;
  e_typ.BlobHashes := e_typ.BlobHashes localTx;
  e_typ.Type_ := e_typ.Type_ localTx
|}.

(** The fetched transaction with another nonce. *)
Definition fetchedTxNonce8 : e_typ.Transaction := {|
  e_typ.Hash := e_typ.Hash localTx;
  e_typ.Nonce := 8;
  e_typ.Gas := e_typ.Gas localTx;
  e_typ.GasPrice := e_typ.GasPrice localTx;
  e_typ.Value := e_typ.Value localTx;
  e_typ.To := e_typ.To localTx;
  e_typ.Data := e_typ.Data localTx;
  e_typ.AccessList := e_typ.AccessList localTx;
  e_typ.ChainId := e_typ.ChainId localTx;
  e_typ.BlobGas := e_typ.BlobGas localTx;
  e_typ.GasFeeCap := e_typ.GasFeeCap localTx;
  e_typ.GasTipCap := e_typ.GasTipCap localTx;
  e_typ.BlobGasFeeCap := e_typ.BlobGasFeeCap localTx;
  e_typ.BlobHashes := e_typ.BlobHashes localTx;
  e_typ.Type_ := e_typ.Type_ localTx
|}.

(* =================================================================== *)
(** ** The test table                                                   *)
(* =================================================================== *)

Definition DATAHASH_START_ADDRESS : Z := 0x100.
Definition DATAHASH_ADDRESS_COUNT : Z := 1000.

(** Fork specific constants *)
Definition DATA_GAS_PER_BLOB : Z := u64 0x20000.

Definition MIN_DATA_GASPRICE : Z := u64 1.
Definition MAX_DATA_GAS_PER_BLOCK : Z := u64 786432.
Definition TARGET_DATA_GAS_PER_BLOCK : Z := u64 393216.

Definition TARGET_BLOBS_PER_BLOCK : Z :=
  u64 (TARGET_DATA_GAS_PER_BLOCK / DATA_GAS_PER_BLOB).
Definition MAX_BLOBS_PER_BLOCK : Z :=
  u64 (MAX_DATA_GAS_PER_BLOCK / DATA_GAS_PER_BLOB).

Definition DATA_GASPRICE_UPDATE_FRACTION : Z := u64 3338477.

Definition BLOB_COMMITMENT_VERSION_KZG : byte := x01.

(** [pUint64(v)]: a pointer to [v]. *)
Definition pUint64 (v : Z) : option Z := Some v.

(** *** Step records

    The structs of the four step kinds are declared next to their
    [Execute] methods; here are the fields that the table's literals name.
    A field that a literal leaves out has Go's zero value: [0], [false],
    [None] for a nil pointer or slice, [test.Unknown]. *)

Module VersionedHashes.
Record t := {
  Blobs : option (list helper.BlobID);
  HashVersions : option (list byte)
}.
#[global] Instance t_eq_dec : EqDecision t.
Proof. solve_decision. Defined.
End VersionedHashes.

Module SendBlobTransactions.
Record t := {
  BlobTransactionSendCount : Z;
  BlobsPerTransaction : Z;
  BlobTransactionMaxDataGasCost : option Z;
  BlobTransactionGasFeeCap : option Z;
  BlobTransactionGasTipCap : option Z;
  ReplaceTransactions : bool;
  AccountIndex : Z;
  ClientIndex : Z
}.
End SendBlobTransactions.

Module NewPayloads.
Record t := {
  PayloadCount : Z;
  ExpectedIncludedBlobCount : Z;
  ExpectedBlobs : option (list helper.BlobID);
  VersionedHashes : option VersionedHashes.t;
  PayloadCustomizer : option helper.CustomPayloadData;
  GetPayloadDelay : Z
}.
End NewPayloads.

(** [hive_rpc.HiveRPCEngineStarter{}], the only starter in the table. *)
Inductive EngineStarter := HiveRPCEngineStarter.

Module LaunchClients.
Record t := {
  EngineStarter : EngineStarter;
  SkipAddingToCLMock : bool;
  SkipConnectingToBootnode : bool
}.
End LaunchClients.

Module SendModifiedLatestPayload.
Record t := {
  ClientID : Z;
  VersionedHashes : option VersionedHashes.t;
  ExpectedStatus : test.PayloadStatus
}.
End SendModifiedLatestPayload.

(** The closed set of step kinds held by a [BlobTestSequence]. *)
Inductive TestStep :=
| SendBlobTransactions (step : SendBlobTransactions.t)
| NewPayloads (step : NewPayloads.t)
| LaunchClients (step : LaunchClients.t)
| SendModifiedLatestPayload (step : SendModifiedLatestPayload.t).

Abbreviation BlobTestSequence := (list TestStep) (only parsing).

Module BlobsBaseSpec.
Record t := {
  Spec : test.Spec;
  TimeIncrements : Z;
  GetPayloadDelay : Z;
  BlobsForkHeight : Z;
  BlobTestSequence : BlobTestSequence
}.
End BlobsBaseSpec.

Section Table.

(** [helper.GetBlobList(startId, count)], declared in package [helper]
    next to [BlobID]: the blob list from [startId] on, [count] long. *)
Variable GetBlobList : helper.BlobID -> Z -> option (list helper.BlobID).

(** [GetMinExcessDataBlobsForDataGasPrice], declared with the suite's
    data gas price helpers; its result is a [uint64]. *)
Variable GetMinExcessDataBlobsForDataGasPrice : Z -> Z.

(** Precalculate the first data gas cost increase *)
Definition DATA_GAS_COST_INCREMENT_EXCEED_BLOBS : Z :=
  u64 (GetMinExcessDataBlobsForDataGasPrice 2).

(** List of all blob tests *)
Definition Tests : list BlobsBaseSpec.t := [
  {|
    BlobsBaseSpec.Spec := {|
        test.Name := "Blob Transactions On Block 1, Cancun Genesis";
        test.About := "
			Tests the Cancun fork since genesis.
			"
      |};
    BlobsBaseSpec.TimeIncrements := 0;
    BlobsBaseSpec.GetPayloadDelay := 0;
    BlobsBaseSpec.BlobsForkHeight := 0;
    BlobsBaseSpec.BlobTestSequence := [
        SendBlobTransactions {|
          SendBlobTransactions.BlobTransactionSendCount := TARGET_BLOBS_PER_BLOCK;
          SendBlobTransactions.BlobsPerTransaction := 0;
          SendBlobTransactions.BlobTransactionMaxDataGasCost := big.NewInt 1;
          SendBlobTransactions.BlobTransactionGasFeeCap := None;
          SendBlobTransactions.BlobTransactionGasTipCap := None;
          SendBlobTransactions.ReplaceTransactions := false;
          SendBlobTransactions.AccountIndex := 0;
          SendBlobTransactions.ClientIndex := 0
        |};
        NewPayloads {|
          NewPayloads.PayloadCount := 0;
          NewPayloads.ExpectedIncludedBlobCount := TARGET_BLOBS_PER_BLOCK;
          NewPayloads.ExpectedBlobs := GetBlobList 0 TARGET_BLOBS_PER_BLOCK;
          NewPayloads.VersionedHashes := None;
          NewPayloads.PayloadCustomizer := None;
          NewPayloads.GetPayloadDelay := 0
        |};
        SendBlobTransactions {|
          SendBlobTransactions.BlobTransactionSendCount := u64 (DATA_GAS_COST_INCREMENT_EXCEED_BLOBS / u64 (MAX_BLOBS_PER_BLOCK - TARGET_BLOBS_PER_BLOCK) + 1);
          SendBlobTransactions.BlobsPerTransaction := MAX_BLOBS_PER_BLOCK;
          SendBlobTransactions.BlobTransactionMaxDataGasCost := big.NewInt 1;
          SendBlobTransactions.BlobTransactionGasFeeCap := None;
          SendBlobTransactions.BlobTransactionGasTipCap := None;
          SendBlobTransactions.ReplaceTransactions := false;
          SendBlobTransactions.AccountIndex := 0;
          SendBlobTransactions.ClientIndex := 0
        |};
        NewPayloads {|
          NewPayloads.PayloadCount := DATA_GAS_COST_INCREMENT_EXCEED_BLOBS / u64 (MAX_BLOBS_PER_BLOCK - TARGET_BLOBS_PER_BLOCK);
          NewPayloads.ExpectedIncludedBlobCount := MAX_BLOBS_PER_BLOCK;
          NewPayloads.ExpectedBlobs := None;
          NewPayloads.VersionedHashes := None;
          NewPayloads.PayloadCustomizer := None;
          NewPayloads.GetPayloadDelay := 0
        |};
        NewPayloads {|
          NewPayloads.PayloadCount := 0;
          NewPayloads.ExpectedIncludedBlobCount := 0;
          NewPayloads.ExpectedBlobs := None;
          NewPayloads.VersionedHashes := None;
          NewPayloads.PayloadCustomizer := None;
          NewPayloads.GetPayloadDelay := 0
        |};
        NewPayloads {|
          NewPayloads.PayloadCount := 0;
          NewPayloads.ExpectedIncludedBlobCount := MAX_BLOBS_PER_BLOCK;
          NewPayloads.ExpectedBlobs := None;
          NewPayloads.VersionedHashes := None;
          NewPayloads.PayloadCustomizer := None;
          NewPayloads.GetPayloadDelay := 0
        |}
      ]
  |};
  {|
    BlobsBaseSpec.Spec := {|
        test.Name := "Blob Transaction Ordering, Single Account";
        test.About := "
			Send N blob transactions with MAX_BLOBS_PER_BLOCK-1 blobs each,
			using account A.
			Using same account, and an increased nonce from the previously sent
			transactions, send N blob transactions with 1 blob each.
			Verify that the payloads are created with the correct ordering:
			 - The first payloads must include the first N blob transactions.
			 - The last payloads must include the last single-blob transactions.
			All transactions have sufficient data gas price to be included any
			of the payloads.
			"
      |};
    BlobsBaseSpec.TimeIncrements := 0;
    BlobsBaseSpec.GetPayloadDelay := 0;
    BlobsBaseSpec.BlobsForkHeight := 0;
    BlobsBaseSpec.BlobTestSequence := [
        SendBlobTransactions {|
          SendBlobTransactions.BlobTransactionSendCount := 5;
          SendBlobTransactions.BlobsPerTransaction := u64 (MAX_BLOBS_PER_BLOCK - 1);
          SendBlobTransactions.BlobTransactionMaxDataGasCost := big.NewInt 100;
          SendBlobTransactions.BlobTransactionGasFeeCap := None;
          SendBlobTransactions.BlobTransactionGasTipCap := None;
          SendBlobTransactions.ReplaceTransactions := false;
          SendBlobTransactions.AccountIndex := 0;
          SendBlobTransactions.ClientIndex := 0
        |};
        SendBlobTransactions {|
          SendBlobTransactions.BlobTransactionSendCount := 5;
          SendBlobTransactions.BlobsPerTransaction := 1;
          SendBlobTransactions.BlobTransactionMaxDataGasCost := big.NewInt 100;
          SendBlobTransactions.BlobTransactionGasFeeCap := None;
          SendBlobTransactions.BlobTransactionGasTipCap := None;
          SendBlobTransactions.ReplaceTransactions := false;
          SendBlobTransactions.AccountIndex := 0;
          SendBlobTransactions.ClientIndex := 0
        |};
        NewPayloads {|
          NewPayloads.PayloadCount := 4;
          NewPayloads.ExpectedIncludedBlobCount := u64 (MAX_BLOBS_PER_BLOCK - 1);
          NewPayloads.ExpectedBlobs := None;
          NewPayloads.VersionedHashes := None;
          NewPayloads.PayloadCustomizer := None;
          NewPayloads.GetPayloadDelay := 0
        |};
        NewPayloads {|
          NewPayloads.PayloadCount := 2;
          NewPayloads.ExpectedIncludedBlobCount := MAX_BLOBS_PER_BLOCK;
          NewPayloads.ExpectedBlobs := None;
          NewPayloads.VersionedHashes := None;
          NewPayloads.PayloadCustomizer := None;
          NewPayloads.GetPayloadDelay := 0
        |}
      ]
  |};
  {|
    BlobsBaseSpec.Spec := {|
        test.Name := "Blob Transaction Ordering, Multiple Accounts";
        test.About := "
			Send N blob transactions with MAX_BLOBS_PER_BLOCK-1 blobs each,
			using account A.
			Send N blob transactions with 1 blob each from account B.
			Verify that the payloads are created with the correct ordering:
			 - All payloads must have full blobs.
			All transactions have sufficient data gas price to be included any
			of the payloads.
			"
      |};
    BlobsBaseSpec.TimeIncrements := 0;
    BlobsBaseSpec.GetPayloadDelay := 0;
    BlobsBaseSpec.BlobsForkHeight := 0;
    BlobsBaseSpec.BlobTestSequence := [
        SendBlobTransactions {|
          SendBlobTransactions.BlobTransactionSendCount := 5;
          SendBlobTransactions.BlobsPerTransaction := u64 (MAX_BLOBS_PER_BLOCK - 1);
          SendBlobTransactions.BlobTransactionMaxDataGasCost := big.NewInt 100;
          SendBlobTransactions.BlobTransactionGasFeeCap := None;
          SendBlobTransactions.BlobTransactionGasTipCap := None;
          SendBlobTransactions.ReplaceTransactions := false;
          SendBlobTransactions.AccountIndex := 0;
          SendBlobTransactions.ClientIndex := 0
        |};
        SendBlobTransactions {|
          SendBlobTransactions.BlobTransactionSendCount := 5;
          SendBlobTransactions.BlobsPerTransaction := 1;
          SendBlobTransactions.BlobTransactionMaxDataGasCost := big.NewInt 100;
          SendBlobTransactions.BlobTransactionGasFeeCap := None;
          SendBlobTransactions.BlobTransactionGasTipCap := None;
          SendBlobTransactions.ReplaceTransactions := false;
          SendBlobTransactions.AccountIndex := 1;
          SendBlobTransactions.ClientIndex := 0
        |};
        NewPayloads {|
          NewPayloads.PayloadCount := 5;
          NewPayloads.ExpectedIncludedBlobCount := MAX_BLOBS_PER_BLOCK;
          NewPayloads.ExpectedBlobs := None;
          NewPayloads.VersionedHashes := None;
          NewPayloads.PayloadCustomizer := None;
          NewPayloads.GetPayloadDelay := 0
        |}
      ]
  |};
  {|
    BlobsBaseSpec.Spec := {|
        test.Name := "Blob Transaction Ordering, Multiple Clients";
        test.About := "
			Send N blob transactions with MAX_BLOBS_PER_BLOCK-1 blobs each,
			using account A, to client A.
			Send N blob transactions with 1 blob each from account B, to client
			B.
			Verify that the payloads are created with the correct ordering:
			 - All payloads must have full blobs.
			All transactions have sufficient data gas price to be included any
			of the payloads.
			"
      |};
    BlobsBaseSpec.TimeIncrements := 0;
    BlobsBaseSpec.GetPayloadDelay := 0;
    BlobsBaseSpec.BlobsForkHeight := 0;
    BlobsBaseSpec.BlobTestSequence := [
        LaunchClients {|
          LaunchClients.EngineStarter := HiveRPCEngineStarter;
          LaunchClients.SkipAddingToCLMock := true;
          LaunchClients.SkipConnectingToBootnode := false
        |};
        NewPayloads {|
          NewPayloads.PayloadCount := 1;
          NewPayloads.ExpectedIncludedBlobCount := 0;
          NewPayloads.ExpectedBlobs := None;
          NewPayloads.VersionedHashes := None;
          NewPayloads.PayloadCustomizer := None;
          NewPayloads.GetPayloadDelay := 0
        |};
        SendBlobTransactions {|
          SendBlobTransactions.BlobTransactionSendCount := 5;
          SendBlobTransactions.BlobsPerTransaction := u64 (MAX_BLOBS_PER_BLOCK - 1);
          SendBlobTransactions.BlobTransactionMaxDataGasCost := big.NewInt 100;
          SendBlobTransactions.BlobTransactionGasFeeCap := None;
          SendBlobTransactions.BlobTransactionGasTipCap := None;
          SendBlobTransactions.ReplaceTransactions := false;
          SendBlobTransactions.AccountIndex := 0;
          SendBlobTransactions.ClientIndex := 0
        |};
        SendBlobTransactions {|
          SendBlobTransactions.BlobTransactionSendCount := 5;
          SendBlobTransactions.BlobsPerTransaction := 1;
          SendBlobTransactions.BlobTransactionMaxDataGasCost := big.NewInt 100;
          SendBlobTransactions.BlobTransactionGasFeeCap := None;
          SendBlobTransactions.BlobTransactionGasTipCap := None;
          SendBlobTransactions.ReplaceTransactions := false;
          SendBlobTransactions.AccountIndex := 1;
          SendBlobTransactions.ClientIndex := 1
        |};
        NewPayloads {|
          NewPayloads.PayloadCount := 5;
          NewPayloads.ExpectedIncludedBlobCount := MAX_BLOBS_PER_BLOCK;
          NewPayloads.ExpectedBlobs := None;
          NewPayloads.VersionedHashes := None;
          NewPayloads.PayloadCustomizer := None;
          NewPayloads.GetPayloadDelay := 2
        |}
      ]
  |};
  {|
    BlobsBaseSpec.Spec := {|
        test.Name := "Replace Blob Transactions";
        test.About := "
			Test sending multiple blob transactions with the same nonce, but
			higher gas tip so the transaction is replaced.
			"
      |};
    BlobsBaseSpec.TimeIncrements := 0;
    BlobsBaseSpec.GetPayloadDelay := 0;
    BlobsBaseSpec.BlobsForkHeight := 0;
    BlobsBaseSpec.BlobTestSequence := [
        SendBlobTransactions {|
          SendBlobTransactions.BlobTransactionSendCount := 1;
          SendBlobTransactions.BlobsPerTransaction := 0;
          SendBlobTransactions.BlobTransactionMaxDataGasCost := big.NewInt 1;
          SendBlobTransactions.BlobTransactionGasFeeCap := big.NewInt 1000000000;
          SendBlobTransactions.BlobTransactionGasTipCap := big.NewInt 1000000000;
          SendBlobTransactions.ReplaceTransactions := false;
          SendBlobTransactions.AccountIndex := 0;
          SendBlobTransactions.ClientIndex := 0
        |};
        SendBlobTransactions {|
          SendBlobTransactions.BlobTransactionSendCount := 1;
          SendBlobTransactions.BlobsPerTransaction := 0;
          SendBlobTransactions.BlobTransactionMaxDataGasCost := big.NewInt 1;
          SendBlobTransactions.BlobTransactionGasFeeCap := big.NewInt 10000000000;
          SendBlobTransactions.BlobTransactionGasTipCap := big.NewInt 10000000000;
          SendBlobTransactions.ReplaceTransactions := true;
          SendBlobTransactions.AccountIndex := 0;
          SendBlobTransactions.ClientIndex := 0
        |};
        SendBlobTransactions {|
          SendBlobTransactions.BlobTransactionSendCount := 1;
          SendBlobTransactions.BlobsPerTransaction := 0;
          SendBlobTransactions.BlobTransactionMaxDataGasCost := big.NewInt 1;
          SendBlobTransactions.BlobTransactionGasFeeCap := big.NewInt 100000000000;
          SendBlobTransactions.BlobTransactionGasTipCap := big.NewInt 100000000000;
          SendBlobTransactions.ReplaceTransactions := true;
          SendBlobTransactions.AccountIndex := 0;
          SendBlobTransactions.ClientIndex := 0
        |};
        SendBlobTransactions {|
          SendBlobTransactions.BlobTransactionSendCount := 1;
          SendBlobTransactions.BlobsPerTransaction := 0;
          SendBlobTransactions.BlobTransactionMaxDataGasCost := big.NewInt 1;
          SendBlobTransactions.BlobTransactionGasFeeCap := big.NewInt 1000000000000;
          SendBlobTransactions.BlobTransactionGasTipCap := big.NewInt 1000000000000;
          SendBlobTransactions.ReplaceTransactions := true;
          SendBlobTransactions.AccountIndex := 0;
          SendBlobTransactions.ClientIndex := 0
        |};
        NewPayloads {|
          NewPayloads.PayloadCount := 0;
          NewPayloads.ExpectedIncludedBlobCount := 1;
          NewPayloads.ExpectedBlobs := Some [3];
          NewPayloads.VersionedHashes := None;
          NewPayloads.PayloadCustomizer := None;
          NewPayloads.GetPayloadDelay := 0
        |}
      ]
  |};
  {|
    BlobsBaseSpec.Spec := {|
        test.Name := "NewPayloadV3 Versioned Hashes, Missing Hash";
        test.About := "
			Tests VersionedHashes in Engine API NewPayloadV3 where the array
			is missing one of the hashes.
			"
      |};
    BlobsBaseSpec.TimeIncrements := 0;
    BlobsBaseSpec.GetPayloadDelay := 0;
    BlobsBaseSpec.BlobsForkHeight := 0;
    BlobsBaseSpec.BlobTestSequence := [
        SendBlobTransactions {|
          SendBlobTransactions.BlobTransactionSendCount := TARGET_BLOBS_PER_BLOCK;
          SendBlobTransactions.BlobsPerTransaction := 0;
          SendBlobTransactions.BlobTransactionMaxDataGasCost := big.NewInt 1;
          SendBlobTransactions.BlobTransactionGasFeeCap := None;
          SendBlobTransactions.BlobTransactionGasTipCap := None;
          SendBlobTransactions.ReplaceTransactions := false;
          SendBlobTransactions.AccountIndex := 0;
          SendBlobTransactions.ClientIndex := 0
        |};
        NewPayloads {|
          NewPayloads.PayloadCount := 0;
          NewPayloads.ExpectedIncludedBlobCount := 2;
          NewPayloads.ExpectedBlobs := Some [0; 1];
          NewPayloads.VersionedHashes := Some {|
              VersionedHashes.Blobs := Some [0];
              VersionedHashes.HashVersions := None
            |};
          NewPayloads.PayloadCustomizer := None;
          NewPayloads.GetPayloadDelay := 0
        |}
      ]
  |};
  {|
    BlobsBaseSpec.Spec := {|
        test.Name := "NewPayloadV3 Versioned Hashes, Extra Hash";
        test.About := "
			Tests VersionedHashes in Engine API NewPayloadV3 where the array
			is has an extra hash for a blob that is not in the payload.
			"
      |};
    BlobsBaseSpec.TimeIncrements := 0;
    BlobsBaseSpec.GetPayloadDelay := 0;
    BlobsBaseSpec.BlobsForkHeight := 0;
    BlobsBaseSpec.BlobTestSequence := [
        SendBlobTransactions {|
          SendBlobTransactions.BlobTransactionSendCount := TARGET_BLOBS_PER_BLOCK;
          SendBlobTransactions.BlobsPerTransaction := 0;
          SendBlobTransactions.BlobTransactionMaxDataGasCost := big.NewInt 1;
          SendBlobTransactions.BlobTransactionGasFeeCap := None;
          SendBlobTransactions.BlobTransactionGasTipCap := None;
          SendBlobTransactions.ReplaceTransactions := false;
          SendBlobTransactions.AccountIndex := 0;
          SendBlobTransactions.ClientIndex := 0
        |};
        NewPayloads {|
          NewPayloads.PayloadCount := 0;
          NewPayloads.ExpectedIncludedBlobCount := 2;
          NewPayloads.ExpectedBlobs := Some [0; 1];
          NewPayloads.VersionedHashes := Some {|
              VersionedHashes.Blobs := Some [0; 1; 2];
              VersionedHashes.HashVersions := None
            |};
          NewPayloads.PayloadCustomizer := None;
          NewPayloads.GetPayloadDelay := 0
        |}
      ]
  |};
  {|
    BlobsBaseSpec.Spec := {|
        test.Name := "NewPayloadV3 Versioned Hashes, Out of Order";
        test.About := "
			Tests VersionedHashes in Engine API NewPayloadV3 where the array
			is out of order.
			"
      |};
    BlobsBaseSpec.TimeIncrements := 0;
    BlobsBaseSpec.GetPayloadDelay := 0;
    BlobsBaseSpec.BlobsForkHeight := 0;
    BlobsBaseSpec.BlobTestSequence := [
        SendBlobTransactions {|
          SendBlobTransactions.BlobTransactionSendCount := TARGET_BLOBS_PER_BLOCK;
          SendBlobTransactions.BlobsPerTransaction := 0;
          SendBlobTransactions.BlobTransactionMaxDataGasCost := big.NewInt 1;
          SendBlobTransactions.BlobTransactionGasFeeCap := None;
          SendBlobTransactions.BlobTransactionGasTipCap := None;
          SendBlobTransactions.ReplaceTransactions := false;
          SendBlobTransactions.AccountIndex := 0;
          SendBlobTransactions.ClientIndex := 0
        |};
        NewPayloads {|
          NewPayloads.PayloadCount := 0;
          NewPayloads.ExpectedIncludedBlobCount := 2;
          NewPayloads.ExpectedBlobs := Some [0; 1];
          NewPayloads.VersionedHashes := Some {|
              VersionedHashes.Blobs := Some [1; 0];
              VersionedHashes.HashVersions := None
            |};
          NewPayloads.PayloadCustomizer := None;
          NewPayloads.GetPayloadDelay := 0
        |}
      ]
  |};
  {|
    BlobsBaseSpec.Spec := {|
        test.Name := "NewPayloadV3 Versioned Hashes, Repeated Hash";
        test.About := "
			Tests VersionedHashes in Engine API NewPayloadV3 where the array
			has a blob that is repeated in the array.
			"
      |};
    BlobsBaseSpec.TimeIncrements := 0;
    BlobsBaseSpec.GetPayloadDelay := 0;
    BlobsBaseSpec.BlobsForkHeight := 0;
    BlobsBaseSpec.BlobTestSequence := [
        SendBlobTransactions {|
          SendBlobTransactions.BlobTransactionSendCount := TARGET_BLOBS_PER_BLOCK;
          SendBlobTransactions.BlobsPerTransaction := 0;
          SendBlobTransactions.BlobTransactionMaxDataGasCost := big.NewInt 1;
          SendBlobTransactions.BlobTransactionGasFeeCap := None;
          SendBlobTransactions.BlobTransactionGasTipCap := None;
          SendBlobTransactions.ReplaceTransactions := false;
          SendBlobTransactions.AccountIndex := 0;
          SendBlobTransactions.ClientIndex := 0
        |};
        NewPayloads {|
          NewPayloads.PayloadCount := 0;
          NewPayloads.ExpectedIncludedBlobCount := 2;
          NewPayloads.ExpectedBlobs := Some [0; 1];
          NewPayloads.VersionedHashes := Some {|
              VersionedHashes.Blobs := Some [0; 1; 1];
              VersionedHashes.HashVersions := None
            |};
          NewPayloads.PayloadCustomizer := None;
          NewPayloads.GetPayloadDelay := 0
        |}
      ]
  |};
  {|
    BlobsBaseSpec.Spec := {|
        test.Name := "NewPayloadV3 Versioned Hashes, Incorrect Hash";
        test.About := "
			Tests VersionedHashes in Engine API NewPayloadV3 where the array
			has a blob that is repeated in the array.
			"
      |};
    BlobsBaseSpec.TimeIncrements := 0;
    BlobsBaseSpec.GetPayloadDelay := 0;
    BlobsBaseSpec.BlobsForkHeight := 0;
    BlobsBaseSpec.BlobTestSequence := [
        SendBlobTransactions {|
          SendBlobTransactions.BlobTransactionSendCount := TARGET_BLOBS_PER_BLOCK;
          SendBlobTransactions.BlobsPerTransaction := 0;
          SendBlobTransactions.BlobTransactionMaxDataGasCost := big.NewInt 1;
          SendBlobTransactions.BlobTransactionGasFeeCap := None;
          SendBlobTransactions.BlobTransactionGasTipCap := None;
          SendBlobTransactions.ReplaceTransactions := false;
          SendBlobTransactions.AccountIndex := 0;
          SendBlobTransactions.ClientIndex := 0
        |};
        NewPayloads {|
          NewPayloads.PayloadCount := 0;
          NewPayloads.ExpectedIncludedBlobCount := 2;
          NewPayloads.ExpectedBlobs := Some [0; 1];
          NewPayloads.VersionedHashes := Some {|
              VersionedHashes.Blobs := Some [0; 2];
              VersionedHashes.HashVersions := None
            |};
          NewPayloads.PayloadCustomizer := None;
          NewPayloads.GetPayloadDelay := 0
        |}
      ]
  |};
  {|
    BlobsBaseSpec.Spec := {|
        test.Name := "NewPayloadV3 Versioned Hashes, Incorrect Version";
        test.About := "
			Tests VersionedHashes in Engine API NewPayloadV3 where the array
			has a single blob that has an incorrect version.
			"
      |};
    BlobsBaseSpec.TimeIncrements := 0;
    BlobsBaseSpec.GetPayloadDelay := 0;
    BlobsBaseSpec.BlobsForkHeight := 0;
    BlobsBaseSpec.BlobTestSequence := [
        SendBlobTransactions {|
          SendBlobTransactions.BlobTransactionSendCount := TARGET_BLOBS_PER_BLOCK;
          SendBlobTransactions.BlobsPerTransaction := 0;
          SendBlobTransactions.BlobTransactionMaxDataGasCost := big.NewInt 1;
          SendBlobTransactions.BlobTransactionGasFeeCap := None;
          SendBlobTransactions.BlobTransactionGasTipCap := None;
          SendBlobTransactions.ReplaceTransactions := false;
          SendBlobTransactions.AccountIndex := 0;
          SendBlobTransactions.ClientIndex := 0
        |};
        NewPayloads {|
          NewPayloads.PayloadCount := 0;
          NewPayloads.ExpectedIncludedBlobCount := 2;
          NewPayloads.ExpectedBlobs := Some [0; 1];
          NewPayloads.VersionedHashes := Some {|
              VersionedHashes.Blobs := Some [0; 1];
              VersionedHashes.HashVersions := Some [BLOB_COMMITMENT_VERSION_KZG; byte_add BLOB_COMMITMENT_VERSION_KZG x01]
            |};
          NewPayloads.PayloadCustomizer := None;
          NewPayloads.GetPayloadDelay := 0
        |}
      ]
  |};
  {|
    BlobsBaseSpec.Spec := {|
        test.Name := "NewPayloadV3 Versioned Hashes, Nil Hashes";
        test.About := "
			Tests VersionedHashes in Engine API NewPayloadV3 where the array
			is nil, even though the fork has already happened.
			"
      |};
    BlobsBaseSpec.TimeIncrements := 0;
    BlobsBaseSpec.GetPayloadDelay := 0;
    BlobsBaseSpec.BlobsForkHeight := 0;
    BlobsBaseSpec.BlobTestSequence := [
        SendBlobTransactions {|
          SendBlobTransactions.BlobTransactionSendCount := TARGET_BLOBS_PER_BLOCK;
          SendBlobTransactions.BlobsPerTransaction := 0;
          SendBlobTransactions.BlobTransactionMaxDataGasCost := big.NewInt 1;
          SendBlobTransactions.BlobTransactionGasFeeCap := None;
          SendBlobTransactions.BlobTransactionGasTipCap := None;
          SendBlobTransactions.ReplaceTransactions := false;
          SendBlobTransactions.AccountIndex := 0;
          SendBlobTransactions.ClientIndex := 0
        |};
        NewPayloads {|
          NewPayloads.PayloadCount := 0;
          NewPayloads.ExpectedIncludedBlobCount := 2;
          NewPayloads.ExpectedBlobs := Some [0; 1];
          NewPayloads.VersionedHashes := Some {|
              VersionedHashes.Blobs := None;
              VersionedHashes.HashVersions := None
            |};
          NewPayloads.PayloadCustomizer := None;
          NewPayloads.GetPayloadDelay := 0
        |}
      ]
  |};
  {|
    BlobsBaseSpec.Spec := {|
        test.Name := "NewPayloadV3 Versioned Hashes, Empty Hashes";
        test.About := "
			Tests VersionedHashes in Engine API NewPayloadV3 where the array
			is empty, even though there are blobs in the payload.
			"
      |};
    BlobsBaseSpec.TimeIncrements := 0;
    BlobsBaseSpec.GetPayloadDelay := 0;
    BlobsBaseSpec.BlobsForkHeight := 0;
    BlobsBaseSpec.BlobTestSequence := [
        SendBlobTransactions {|
          SendBlobTransactions.BlobTransactionSendCount := TARGET_BLOBS_PER_BLOCK;
          SendBlobTransactions.BlobsPerTransaction := 0;
          SendBlobTransactions.BlobTransactionMaxDataGasCost := big.NewInt 1;
          SendBlobTransactions.BlobTransactionGasFeeCap := None;
          SendBlobTransactions.BlobTransactionGasTipCap := None;
          SendBlobTransactions.ReplaceTransactions := false;
          SendBlobTransactions.AccountIndex := 0;
          SendBlobTransactions.ClientIndex := 0
        |};
        NewPayloads {|
          NewPayloads.PayloadCount := 0;
          NewPayloads.ExpectedIncludedBlobCount := 2;
          NewPayloads.ExpectedBlobs := Some [0; 1];
          NewPayloads.VersionedHashes := Some {|
              VersionedHashes.Blobs := Some [];
              VersionedHashes.HashVersions := None
            |};
          NewPayloads.PayloadCustomizer := None;
          NewPayloads.GetPayloadDelay := 0
        |}
      ]
  |};
  {|
    BlobsBaseSpec.Spec := {|
        test.Name := "NewPayloadV3 Versioned Hashes, Non-Empty Hashes";
        test.About := "
			Tests VersionedHashes in Engine API NewPayloadV3 where the array
			is contains hashes, even though there are no blobs in the payload.
			"
      |};
    BlobsBaseSpec.TimeIncrements := 0;
    BlobsBaseSpec.GetPayloadDelay := 0;
    BlobsBaseSpec.BlobsForkHeight := 0;
    BlobsBaseSpec.BlobTestSequence := [
        NewPayloads {|
          NewPayloads.PayloadCount := 0;
          NewPayloads.ExpectedIncludedBlobCount := 0;
          NewPayloads.ExpectedBlobs := Some [];
          NewPayloads.VersionedHashes := Some {|
              VersionedHashes.Blobs := Some [0; 1];
              VersionedHashes.HashVersions := None
            |};
          NewPayloads.PayloadCustomizer := None;
          NewPayloads.GetPayloadDelay := 0
        |}
      ]
  |};
  {|
    BlobsBaseSpec.Spec := {|
        test.Name := "NewPayloadV3 Versioned Hashes, Missing Hash (Syncing)";
        test.About := "
			Tests VersionedHashes in Engine API NewPayloadV3 where the array
			is missing one of the hashes.
			"
      |};
    BlobsBaseSpec.TimeIncrements := 0;
    BlobsBaseSpec.GetPayloadDelay := 0;
    BlobsBaseSpec.BlobsForkHeight := 0;
    BlobsBaseSpec.BlobTestSequence := [
        NewPayloads {|
          NewPayloads.PayloadCount := 0;
          NewPayloads.ExpectedIncludedBlobCount := 0;
          NewPayloads.ExpectedBlobs := None;
          NewPayloads.VersionedHashes := None;
          NewPayloads.PayloadCustomizer := None;
          NewPayloads.GetPayloadDelay := 0
        |};
        SendBlobTransactions {|
          SendBlobTransactions.BlobTransactionSendCount := TARGET_BLOBS_PER_BLOCK;
          SendBlobTransactions.BlobsPerTransaction := 0;
          SendBlobTransactions.BlobTransactionMaxDataGasCost := big.NewInt 1;
          SendBlobTransactions.BlobTransactionGasFeeCap := None;
          SendBlobTransactions.BlobTransactionGasTipCap := None;
          SendBlobTransactions.ReplaceTransactions := false;
          SendBlobTransactions.AccountIndex := 0;
          SendBlobTransactions.ClientIndex := 0
        |};
        NewPayloads {|
          NewPayloads.PayloadCount := 0;
          NewPayloads.ExpectedIncludedBlobCount := 2;
          NewPayloads.ExpectedBlobs := Some [0; 1];
          NewPayloads.VersionedHashes := None;
          NewPayloads.PayloadCustomizer := None;
          NewPayloads.GetPayloadDelay := 0
        |};
        LaunchClients {|
          LaunchClients.EngineStarter := HiveRPCEngineStarter;
          LaunchClients.SkipAddingToCLMock := true;
          LaunchClients.SkipConnectingToBootnode := true
        |};
        SendModifiedLatestPayload {|
          SendModifiedLatestPayload.ClientID := 1;
          SendModifiedLatestPayload.VersionedHashes := Some {|
              VersionedHashes.Blobs := Some [0];
              VersionedHashes.HashVersions := None
            |};
          SendModifiedLatestPayload.ExpectedStatus := test.Invalid
        |}
      ]
  |};
  {|
    BlobsBaseSpec.Spec := {|
        test.Name := "NewPayloadV3 Versioned Hashes, Extra Hash (Syncing)";
        test.About := "
			Tests VersionedHashes in Engine API NewPayloadV3 where the array
			is has an extra hash for a blob that is not in the payload.
			"
      |};
    BlobsBaseSpec.TimeIncrements := 0;
    BlobsBaseSpec.GetPayloadDelay := 0;
    BlobsBaseSpec.BlobsForkHeight := 0;
    BlobsBaseSpec.BlobTestSequence := [
        NewPayloads {|
          NewPayloads.PayloadCount := 0;
          NewPayloads.ExpectedIncludedBlobCount := 0;
          NewPayloads.ExpectedBlobs := None;
          NewPayloads.VersionedHashes := None;
          NewPayloads.PayloadCustomizer := None;
          NewPayloads.GetPayloadDelay := 0
        |};
        SendBlobTransactions {|
          SendBlobTransactions.BlobTransactionSendCount := TARGET_BLOBS_PER_BLOCK;
          SendBlobTransactions.BlobsPerTransaction := 0;
          SendBlobTransactions.BlobTransactionMaxDataGasCost := big.NewInt 1;
          SendBlobTransactions.BlobTransactionGasFeeCap := None;
          SendBlobTransactions.BlobTransactionGasTipCap := None;
          SendBlobTransactions.ReplaceTransactions := false;
          SendBlobTransactions.AccountIndex := 0;
          SendBlobTransactions.ClientIndex := 0
        |};
        NewPayloads {|
          NewPayloads.PayloadCount := 0;
          NewPayloads.ExpectedIncludedBlobCount := 2;
          NewPayloads.ExpectedBlobs := Some [0; 1];
          NewPayloads.VersionedHashes := None;
          NewPayloads.PayloadCustomizer := None;
          NewPayloads.GetPayloadDelay := 0
        |};
        LaunchClients {|
          LaunchClients.EngineStarter := HiveRPCEngineStarter;
          LaunchClients.SkipAddingToCLMock := true;
          LaunchClients.SkipConnectingToBootnode := true
        |};
        SendModifiedLatestPayload {|
          SendModifiedLatestPayload.ClientID := 1;
          SendModifiedLatestPayload.VersionedHashes := Some {|
              VersionedHashes.Blobs := Some [0; 1; 2];
              VersionedHashes.HashVersions := None
            |};
          SendModifiedLatestPayload.ExpectedStatus := test.Invalid
        |}
      ]
  |};
  {|
    BlobsBaseSpec.Spec := {|
        test.Name := "NewPayloadV3 Versioned Hashes, Out of Order (Syncing)";
        test.About := "
			Tests VersionedHashes in Engine API NewPayloadV3 where the array
			is out of order.
			"
      |};
    BlobsBaseSpec.TimeIncrements := 0;
    BlobsBaseSpec.GetPayloadDelay := 0;
    BlobsBaseSpec.BlobsForkHeight := 0;
    BlobsBaseSpec.BlobTestSequence := [
        NewPayloads {|
          NewPayloads.PayloadCount := 0;
          NewPayloads.ExpectedIncludedBlobCount := 0;
          NewPayloads.ExpectedBlobs := None;
          NewPayloads.VersionedHashes := None;
          NewPayloads.PayloadCustomizer := None;
          NewPayloads.GetPayloadDelay := 0
        |};
        SendBlobTransactions {|
          SendBlobTransactions.BlobTransactionSendCount := TARGET_BLOBS_PER_BLOCK;
          SendBlobTransactions.BlobsPerTransaction := 0;
          SendBlobTransactions.BlobTransactionMaxDataGasCost := big.NewInt 1;
          SendBlobTransactions.BlobTransactionGasFeeCap := None;
          SendBlobTransactions.BlobTransactionGasTipCap := None;
          SendBlobTransactions.ReplaceTransactions := false;
          SendBlobTransactions.AccountIndex := 0;
          SendBlobTransactions.ClientIndex := 0
        |};
        NewPayloads {|
          NewPayloads.PayloadCount := 0;
          NewPayloads.ExpectedIncludedBlobCount := 2;
          NewPayloads.ExpectedBlobs := Some [0; 1];
          NewPayloads.VersionedHashes := None;
          NewPayloads.PayloadCustomizer := None;
          NewPayloads.GetPayloadDelay := 0
        |};
        LaunchClients {|
          LaunchClients.EngineStarter := HiveRPCEngineStarter;
          LaunchClients.SkipAddingToCLMock := true;
          LaunchClients.SkipConnectingToBootnode := true
        |};
        SendModifiedLatestPayload {|
          SendModifiedLatestPayload.ClientID := 1;
          SendModifiedLatestPayload.VersionedHashes := Some {|
              VersionedHashes.Blobs := Some [1; 0];
              VersionedHashes.HashVersions := None
            |};
          SendModifiedLatestPayload.ExpectedStatus := test.Invalid
        |}
      ]
  |};
  {|
    BlobsBaseSpec.Spec := {|
        test.Name := "NewPayloadV3 Versioned Hashes, Repeated Hash (Syncing)";
        test.About := "
			Tests VersionedHashes in Engine API NewPayloadV3 where the array
			has a blob that is repeated in the array.
			"
      |};
    BlobsBaseSpec.TimeIncrements := 0;
    BlobsBaseSpec.GetPayloadDelay := 0;
    BlobsBaseSpec.BlobsForkHeight := 0;
    BlobsBaseSpec.BlobTestSequence := [
        NewPayloads {|
          NewPayloads.PayloadCount := 0;
          NewPayloads.ExpectedIncludedBlobCount := 0;
          NewPayloads.ExpectedBlobs := None;
          NewPayloads.VersionedHashes := None;
          NewPayloads.PayloadCustomizer := None;
          NewPayloads.GetPayloadDelay := 0
        |};
        SendBlobTransactions {|
          SendBlobTransactions.BlobTransactionSendCount := TARGET_BLOBS_PER_BLOCK;
          SendBlobTransactions.BlobsPerTransaction := 0;
          SendBlobTransactions.BlobTransactionMaxDataGasCost := big.NewInt 1;
          SendBlobTransactions.BlobTransactionGasFeeCap := None;
          SendBlobTransactions.BlobTransactionGasTipCap := None;
          SendBlobTransactions.ReplaceTransactions := false;
          SendBlobTransactions.AccountIndex := 0;
          SendBlobTransactions.ClientIndex := 0
        |};
        NewPayloads {|
          NewPayloads.PayloadCount := 0;
          NewPayloads.ExpectedIncludedBlobCount := 2;
          NewPayloads.ExpectedBlobs := Some [0; 1];
          NewPayloads.VersionedHashes := None;
          NewPayloads.PayloadCustomizer := None;
          NewPayloads.GetPayloadDelay := 0
        |};
        LaunchClients {|
          LaunchClients.EngineStarter := HiveRPCEngineStarter;
          LaunchClients.SkipAddingToCLMock := true;
          LaunchClients.SkipConnectingToBootnode := true
        |};
        SendModifiedLatestPayload {|
          SendModifiedLatestPayload.ClientID := 1;
          SendModifiedLatestPayload.VersionedHashes := Some {|
              VersionedHashes.Blobs := Some [0; 1; 1];
              VersionedHashes.HashVersions := None
            |};
          SendModifiedLatestPayload.ExpectedStatus := test.Invalid
        |}
      ]
  |};
  {|
    BlobsBaseSpec.Spec := {|
        test.Name := "NewPayloadV3 Versioned Hashes, Incorrect Hash (Syncing)";
        test.About := "
			Tests VersionedHashes in Engine API NewPayloadV3 where the array
			has a blob that is repeated in the array.
			"
      |};
    BlobsBaseSpec.TimeIncrements := 0;
    BlobsBaseSpec.GetPayloadDelay := 0;
    BlobsBaseSpec.BlobsForkHeight := 0;
    BlobsBaseSpec.BlobTestSequence := [
        NewPayloads {|
          NewPayloads.PayloadCount := 0;
          NewPayloads.ExpectedIncludedBlobCount := 0;
          NewPayloads.ExpectedBlobs := None;
          NewPayloads.VersionedHashes := None;
          NewPayloads.PayloadCustomizer := None;
          NewPayloads.GetPayloadDelay := 0
        |};
        SendBlobTransactions {|
          SendBlobTransactions.BlobTransactionSendCount := TARGET_BLOBS_PER_BLOCK;
          SendBlobTransactions.BlobsPerTransaction := 0;
          SendBlobTransactions.BlobTransactionMaxDataGasCost := big.NewInt 1;
          SendBlobTransactions.BlobTransactionGasFeeCap := None;
          SendBlobTransactions.BlobTransactionGasTipCap := None;
          SendBlobTransactions.ReplaceTransactions := false;
          SendBlobTransactions.AccountIndex := 0;
          SendBlobTransactions.ClientIndex := 0
        |};
        NewPayloads {|
          NewPayloads.PayloadCount := 0;
          NewPayloads.ExpectedIncludedBlobCount := 2;
          NewPayloads.ExpectedBlobs := Some [0; 1];
          NewPayloads.VersionedHashes := None;
          NewPayloads.PayloadCustomizer := None;
          NewPayloads.GetPayloadDelay := 0
        |};
        LaunchClients {|
          LaunchClients.EngineStarter := HiveRPCEngineStarter;
          LaunchClients.SkipAddingToCLMock := true;
          LaunchClients.SkipConnectingToBootnode := true
        |};
        SendModifiedLatestPayload {|
          SendModifiedLatestPayload.ClientID := 1;
          SendModifiedLatestPayload.VersionedHashes := Some {|
              VersionedHashes.Blobs := Some [0; 2];
              VersionedHashes.HashVersions := None
            |};
          SendModifiedLatestPayload.ExpectedStatus := test.Invalid
        |}
      ]
  |};
  {|
    BlobsBaseSpec.Spec := {|
        test.Name := "NewPayloadV3 Versioned Hashes, Incorrect Version (Syncing)";
        test.About := "
			Tests VersionedHashes in Engine API NewPayloadV3 where the array
			has a single blob that has an incorrect version.
			"
      |};
    BlobsBaseSpec.TimeIncrements := 0;
    BlobsBaseSpec.GetPayloadDelay := 0;
    BlobsBaseSpec.BlobsForkHeight := 0;
    BlobsBaseSpec.BlobTestSequence := [
        NewPayloads {|
          NewPayloads.PayloadCount := 0;
          NewPayloads.ExpectedIncludedBlobCount := 0;
          NewPayloads.ExpectedBlobs := None;
          NewPayloads.VersionedHashes := None;
          NewPayloads.PayloadCustomizer := None;
          NewPayloads.GetPayloadDelay := 0
        |};
        SendBlobTransactions {|
          SendBlobTransactions.BlobTransactionSendCount := TARGET_BLOBS_PER_BLOCK;
          SendBlobTransactions.BlobsPerTransaction := 0;
          SendBlobTransactions.BlobTransactionMaxDataGasCost := big.NewInt 1;
          SendBlobTransactions.BlobTransactionGasFeeCap := None;
          SendBlobTransactions.BlobTransactionGasTipCap := None;
          SendBlobTransactions.ReplaceTransactions := false;
          SendBlobTransactions.AccountIndex := 0;
          SendBlobTransactions.ClientIndex := 0
        |};
        NewPayloads {|
          NewPayloads.PayloadCount := 0;
          NewPayloads.ExpectedIncludedBlobCount := 2;
          NewPayloads.ExpectedBlobs := Some [0; 1];
          NewPayloads.VersionedHashes := None;
          NewPayloads.PayloadCustomizer := None;
          NewPayloads.GetPayloadDelay := 0
        |};
        LaunchClients {|
          LaunchClients.EngineStarter := HiveRPCEngineStarter;
          LaunchClients.SkipAddingToCLMock := true;
          LaunchClients.SkipConnectingToBootnode := true
        |};
        SendModifiedLatestPayload {|
          SendModifiedLatestPayload.ClientID := 1;
          SendModifiedLatestPayload.VersionedHashes := Some {|
              VersionedHashes.Blobs := Some [0; 1];
              VersionedHashes.HashVersions := Some [BLOB_COMMITMENT_VERSION_KZG; byte_add BLOB_COMMITMENT_VERSION_KZG x01]
            |};
          SendModifiedLatestPayload.ExpectedStatus := test.Invalid
        |}
      ]
  |};
  {|
    BlobsBaseSpec.Spec := {|
        test.Name := "NewPayloadV3 Versioned Hashes, Nil Hashes (Syncing)";
        test.About := "
			Tests VersionedHashes in Engine API NewPayloadV3 where the array
			is nil, even though the fork has already happened.
			"
      |};
    BlobsBaseSpec.TimeIncrements := 0;
    BlobsBaseSpec.GetPayloadDelay := 0;
    BlobsBaseSpec.BlobsForkHeight := 0;
    BlobsBaseSpec.BlobTestSequence := [
        NewPayloads {|
          NewPayloads.PayloadCount := 0;
          NewPayloads.ExpectedIncludedBlobCount := 0;
          NewPayloads.ExpectedBlobs := None;
          NewPayloads.VersionedHashes := None;
          NewPayloads.PayloadCustomizer := None;
          NewPayloads.GetPayloadDelay := 0
        |};
        SendBlobTransactions {|
          SendBlobTransactions.BlobTransactionSendCount := TARGET_BLOBS_PER_BLOCK;
          SendBlobTransactions.BlobsPerTransaction := 0;
          SendBlobTransactions.BlobTransactionMaxDataGasCost := big.NewInt 1;
          SendBlobTransactions.BlobTransactionGasFeeCap := None;
          SendBlobTransactions.BlobTransactionGasTipCap := None;
          SendBlobTransactions.ReplaceTransactions := false;
          SendBlobTransactions.AccountIndex := 0;
          SendBlobTransactions.ClientIndex := 0
        |};
        NewPayloads {|
          NewPayloads.PayloadCount := 0;
          NewPayloads.ExpectedIncludedBlobCount := 2;
          NewPayloads.ExpectedBlobs := Some [0; 1];
          NewPayloads.VersionedHashes := None;
          NewPayloads.PayloadCustomizer := None;
          NewPayloads.GetPayloadDelay := 0
        |};
        LaunchClients {|
          LaunchClients.EngineStarter := HiveRPCEngineStarter;
          LaunchClients.SkipAddingToCLMock := true;
          LaunchClients.SkipConnectingToBootnode := true
        |};
        SendModifiedLatestPayload {|
          SendModifiedLatestPayload.ClientID := 1;
          SendModifiedLatestPayload.VersionedHashes := Some {|
              VersionedHashes.Blobs := None;
              VersionedHashes.HashVersions := None
            |};
          SendModifiedLatestPayload.ExpectedStatus := test.Invalid
        |}
      ]
  |};
  {|
    BlobsBaseSpec.Spec := {|
        test.Name := "NewPayloadV3 Versioned Hashes, Empty Hashes (Syncing)";
        test.About := "
			Tests VersionedHashes in Engine API NewPayloadV3 where the array
			is empty, even though there are blobs in the payload.
			"
      |};
    BlobsBaseSpec.TimeIncrements := 0;
    BlobsBaseSpec.GetPayloadDelay := 0;
    BlobsBaseSpec.BlobsForkHeight := 0;
    BlobsBaseSpec.BlobTestSequence := [
        NewPayloads {|
          NewPayloads.PayloadCount := 0;
          NewPayloads.ExpectedIncludedBlobCount := 0;
          NewPayloads.ExpectedBlobs := None;
          NewPayloads.VersionedHashes := None;
          NewPayloads.PayloadCustomizer := None;
          NewPayloads.GetPayloadDelay := 0
        |};
        SendBlobTransactions {|
          SendBlobTransactions.BlobTransactionSendCount := TARGET_BLOBS_PER_BLOCK;
          SendBlobTransactions.BlobsPerTransaction := 0;
          SendBlobTransactions.BlobTransactionMaxDataGasCost := big.NewInt 1;
          SendBlobTransactions.BlobTransactionGasFeeCap := None;
          SendBlobTransactions.BlobTransactionGasTipCap := None;
          SendBlobTransactions.ReplaceTransactions := false;
          SendBlobTransactions.AccountIndex := 0;
          SendBlobTransactions.ClientIndex := 0
        |};
        NewPayloads {|
          NewPayloads.PayloadCount := 0;
          NewPayloads.ExpectedIncludedBlobCount := 2;
          NewPayloads.ExpectedBlobs := Some [0; 1];
          NewPayloads.VersionedHashes := None;
          NewPayloads.PayloadCustomizer := None;
          NewPayloads.GetPayloadDelay := 0
        |};
        LaunchClients {|
          LaunchClients.EngineStarter := HiveRPCEngineStarter;
          LaunchClients.SkipAddingToCLMock := true;
          LaunchClients.SkipConnectingToBootnode := true
        |};
        SendModifiedLatestPayload {|
          SendModifiedLatestPayload.ClientID := 1;
          SendModifiedLatestPayload.VersionedHashes := Some {|
              VersionedHashes.Blobs := Some [];
              VersionedHashes.HashVersions := None
            |};
          SendModifiedLatestPayload.ExpectedStatus := test.Invalid
        |}
      ]
  |};
  {|
    BlobsBaseSpec.Spec := {|
        test.Name := "NewPayloadV3 Versioned Hashes, Non-Empty Hashes (Syncing)";
        test.About := "
			Tests VersionedHashes in Engine API NewPayloadV3 where the array
			is contains hashes, even though there are no blobs in the payload.
			"
      |};
    BlobsBaseSpec.TimeIncrements := 0;
    BlobsBaseSpec.GetPayloadDelay := 0;
    BlobsBaseSpec.BlobsForkHeight := 0;
    BlobsBaseSpec.BlobTestSequence := [
        NewPayloads {|
          NewPayloads.PayloadCount := 0;
          NewPayloads.ExpectedIncludedBlobCount := 0;
          NewPayloads.ExpectedBlobs := None;
          NewPayloads.VersionedHashes := None;
          NewPayloads.PayloadCustomizer := None;
          NewPayloads.GetPayloadDelay := 0
        |};
        NewPayloads {|
          NewPayloads.PayloadCount := 0;
          NewPayloads.ExpectedIncludedBlobCount := 0;
          NewPayloads.ExpectedBlobs := Some [];
          NewPayloads.VersionedHashes := None;
          NewPayloads.PayloadCustomizer := None;
          NewPayloads.GetPayloadDelay := 0
        |};
        LaunchClients {|
          LaunchClients.EngineStarter := HiveRPCEngineStarter;
          LaunchClients.SkipAddingToCLMock := true;
          LaunchClients.SkipConnectingToBootnode := true
        |};
        SendModifiedLatestPayload {|
          SendModifiedLatestPayload.ClientID := 1;
          SendModifiedLatestPayload.VersionedHashes := Some {|
              VersionedHashes.Blobs := Some [0; 1];
              VersionedHashes.HashVersions := None
            |};
          SendModifiedLatestPayload.ExpectedStatus := test.Invalid
        |}
      ]
  |};
  {|
    BlobsBaseSpec.Spec := {|
        test.Name := "Incorrect DataGasUsed: Non-Zero on Zero Blobs";
        test.About := "
			Send a payload with zero blobs, but non-zero DataGasUsed.
			"
      |};
    BlobsBaseSpec.TimeIncrements := 0;
    BlobsBaseSpec.GetPayloadDelay := 0;
    BlobsBaseSpec.BlobsForkHeight := 0;
    BlobsBaseSpec.BlobTestSequence := [
        NewPayloads {|
          NewPayloads.PayloadCount := 0;
          NewPayloads.ExpectedIncludedBlobCount := 0;
          NewPayloads.ExpectedBlobs := None;
          NewPayloads.VersionedHashes := None;
          NewPayloads.PayloadCustomizer := Some {| helper.DataGasUsed := pUint64 1 |};
          NewPayloads.GetPayloadDelay := 0
        |}
      ]
  |};
  {|
    BlobsBaseSpec.Spec := {|
        test.Name := "Incorrect DataGasUsed: DATA_GAS_PER_BLOB on Zero Blobs";
        test.About := "
			Send a payload with zero blobs, but non-zero DataGasUsed.
			"
      |};
    BlobsBaseSpec.TimeIncrements := 0;
    BlobsBaseSpec.GetPayloadDelay := 0;
    BlobsBaseSpec.BlobsForkHeight := 0;
    BlobsBaseSpec.BlobTestSequence := [
        NewPayloads {|
          NewPayloads.PayloadCount := 0;
          NewPayloads.ExpectedIncludedBlobCount := 0;
          NewPayloads.ExpectedBlobs := None;
          NewPayloads.VersionedHashes := None;
          NewPayloads.PayloadCustomizer := Some {| helper.DataGasUsed := pUint64 DATA_GAS_PER_BLOB |};
          NewPayloads.GetPayloadDelay := 0
        |}
      ]
  |}
].

End Table.

(* =================================================================== *)
(** ** Reading a step sequence                                          *)
(* =================================================================== *)

(** Modelled from the spec: the getters of the step structs are declared
    with the structs, not in helpers.go.  A send step builds transactions
    "carrying 1..N blobs": a literal that names no [BlobsPerTransaction]
    sends single-blob transactions (the table marks the sends of the
    replacement scenario [Blob ID 0] .. [Blob ID 3]). *)
Definition GetBlobsPerTransaction (step : SendBlobTransactions.t) : Z :=
  if decide (SendBlobTransactions.BlobsPerTransaction step = 0) then 1
  else SendBlobTransactions.BlobsPerTransaction step.

(** Modelled from the spec: a payload step is "repeatable [payloadCount]
    times in one invocation"; a literal that names no [PayloadCount]
    produces one payload (the table: "We create the first payload",
    "there will be an empty payload"). *)
Definition GetPayloadCount (step : NewPayloads.t) : Z :=
  if decide (NewPayloads.PayloadCount step = 0) then 1
  else NewPayloads.PayloadCount step.

(** The included-blob count expected of every payload that a sequence
    produces, payload by payload. *)
Definition expectedPayloads (seq : BlobTestSequence) : list Z :=
  flat_map (fun step =>
    match step with
    | NewPayloads np =>
        replicate (Z.to_nat (GetPayloadCount np))
                  (NewPayloads.ExpectedIncludedBlobCount np)
    | _ => []
    end) seq.

Definition sendSteps (seq : BlobTestSequence) : list SendBlobTransactions.t :=
  omap (fun step => match step with SendBlobTransactions s => Some s | _ => None end) seq.

Definition payloadSteps (seq : BlobTestSequence) : list NewPayloads.t :=
  omap (fun step => match step with NewPayloads s => Some s | _ => None end) seq.

Definition modifiedPayloadSteps (seq : BlobTestSequence)
  : list SendModifiedLatestPayload.t :=
  omap (fun step => match step with SendModifiedLatestPayload s => Some s | _ => None end) seq.

(** The scenario of the table with the given name. *)
Definition findSpec (name : string) (tests : list BlobsBaseSpec.t)
  : option BlobsBaseSpec.t :=
  head (filter (fun bs => test.Name (BlobsBaseSpec.Spec bs) = name) tests).

(** *** Corruptions of the versioned-hash list

    The eight ways in which the table corrupts the list of a payload that
    holds the blobs 0 and 1, the name under which the table applies each
    to a syncing client, and the list that each stands for. *)
Inductive CorruptionMode :=
| MissingHash | ExtraHash | OutOfOrder | RepeatedHash
| IncorrectHash | IncorrectVersion | NilHashes | EmptyHashes.

Definition modeName (m : CorruptionMode) : string :=
  match m with
  | MissingHash => "Missing Hash"
  | ExtraHash => "Extra Hash"
  | OutOfOrder => "Out of Order"
  | RepeatedHash => "Repeated Hash"
  | IncorrectHash => "Incorrect Hash"
  | IncorrectVersion => "Incorrect Version"
  | NilHashes => "Nil Hashes"
  | EmptyHashes => "Empty Hashes"
  end.

Definition modeScenario (m : CorruptionMode) : string :=
  "NewPayloadV3 Versioned Hashes, " ++ modeName m ++ " (Syncing)".

Definition modeOverride (m : CorruptionMode) : VersionedHashes.t :=
  match m with
  | MissingHash =>
      {| VersionedHashes.Blobs := Some [0]; VersionedHashes.HashVersions := None |}
  | ExtraHash =>
      {| VersionedHashes.Blobs := Some [0; 1; 2]; VersionedHashes.HashVersions := None |}
  | OutOfOrder =>
      {| VersionedHashes.Blobs := Some [1; 0]; VersionedHashes.HashVersions := None |}
  | RepeatedHash =>
      {| VersionedHashes.Blobs := Some [0; 1; 1]; VersionedHashes.HashVersions := None |}
  | IncorrectHash =>
      {| VersionedHashes.Blobs := Some [0; 2]; VersionedHashes.HashVersions := None |}
  | IncorrectVersion =>
      {| VersionedHashes.Blobs := Some [0; 1];
         VersionedHashes.HashVersions := Some [x01; x02] |}
  | NilHashes =>
      {| VersionedHashes.Blobs := None; VersionedHashes.HashVersions := None |}
  | EmptyHashes =>
      {| VersionedHashes.Blobs := Some []; VersionedHashes.HashVersions := None |}
  end.

(** The steps of the whole table that send a modified payload. *)
Definition allModifiedPayloadSteps (tests : list BlobsBaseSpec.t)
  : list SendModifiedLatestPayload.t :=
  flat_map (fun bs => modifiedPayloadSteps (BlobsBaseSpec.BlobTestSequence bs)) tests.

(** *** Submission plan

    Modelled from the spec: what a send step submits (component "Blob
    transaction factory"; the method itself is declared with the step
    structs).  Per transaction: the account's next nonce is resolved, and
    "if [replace] is set, reuse the previous nonce issued to that account
    instead of advancing"; [blobsPerTransaction] fresh BlobIDs come "from a
    monotonically increasing counter shared across the whole test run". *)
Record PlannedTx := {
  ptxAccount : Z;
  ptxClient : Z;
  ptxNonce : Z;
  ptxBlobs : list helper.BlobID;
  ptxGasFeeCap : option Z;
  ptxGasTipCap : option Z
}.

Record SendState := {
  CurrentBlobID : helper.BlobID;
  nextNonce : gmap Z Z
}.

Definition sendOne (step : SendBlobTransactions.t) (st : SendState)
  : PlannedTx * SendState :=
  let account := SendBlobTransactions.AccountIndex step in
  let next := default 0 (nextNonce st !! account) in
  let nonce := if SendBlobTransactions.ReplaceTransactions step
               then u64 (next - 1) else next in
  let blobCount := GetBlobsPerTransaction step in
  ({| ptxAccount := account;
      ptxClient := SendBlobTransactions.ClientIndex step;
      ptxNonce := nonce;
      ptxBlobs := seqZ (CurrentBlobID st) blobCount;
      ptxGasFeeCap := SendBlobTransactions.BlobTransactionGasFeeCap step;
      ptxGasTipCap := SendBlobTransactions.BlobTransactionGasTipCap step |},
   {| CurrentBlobID := u64 (CurrentBlobID st + blobCount);
      nextNonce := <[account := u64 (nonce + 1)]> (nextNonce st) |}).

Fixpoint sendMany (count : nat) (step : SendBlobTransactions.t) (st : SendState)
  : list PlannedTx * SendState :=
  match count with
  | O => ([], st)
  | S count =>
      let '(tx, st) := sendOne step st in
      let '(txs, st) := sendMany count step st in
      (tx :: txs, st)
  end.

Fixpoint planFrom (st : SendState) (seq : BlobTestSequence) : list PlannedTx :=
  match seq with
  | [] => []
  | SendBlobTransactions step :: rest =>
      let '(txs, st) :=
        sendMany (Z.to_nat (SendBlobTransactions.BlobTransactionSendCount step))
                 step st in
      txs ++ planFrom st rest
  | _ :: rest => planFrom st rest
  end.

Definition plan (seq : BlobTestSequence) : list PlannedTx :=
  planFrom {| CurrentBlobID := 0; nextNonce := ∅ |} seq.

(* =================================================================== *)
(** ** [BlobsBaseSpec.Execute]                                          *)
(* =================================================================== *)

(** [BlobTestContext], as [Execute] builds it. The context holds the
    pointer [t]: what is written through [t] is read through the context. *)
Module BlobTestContext.
Record t := {
  Env : test.Env;
  TestBlobTxPool : TestBlobTxPool
}.
End BlobTestContext.

(** What [Execute] does that its caller observes, in order. *)
Inductive Event :=
| Logf (format : string) (stepNo : Z) (description : string)
| StepExecute (stepId : nat) (step : TestStep)
| Fatalf (format : string) (stepNo : Z) (err : error).

Inductive Outcome :=
| Returned     (* Execute returns to the caller *)
| FailedNow    (* the test case is over: t.Fatalf does not return *).

Section Execute.

(** The two methods of the [TestStep] interface; each step kind implements
    them next to its struct.  [Execute] receives the shared context and may
    change it. *)
Variable Description : TestStep -> string.
Variable stepExecute :
  TestStep -> BlobTestContext.t -> BlobTestContext.t * option error.

(** [t.CLMock.WaitForTTD()]: the environment once the network is ready, or
    [None] when the bounded wait expires, which is fatal. *)
Variable WaitForTTD : test.Env -> option test.Env.

(** [for stepId, step := range bs.BlobTestSequence { ... }] from index
    [stepId] on.

    Modelled from the spec: [t.Fatalf] reports and is fatal, "the first
    failing assertion aborts the test case"; nothing after it runs. *)
Fixpoint rangeSteps (stepId : nat) (steps : BlobTestSequence)
    (blobTestCtx : BlobTestContext.t)
  : list Event * BlobTestContext.t * Outcome :=
  match steps with
  | [] => ([], blobTestCtx, Returned)
  | step :: rest =>
      let info := Logf "INFO: Executing step %d: %s"
                    (Z.of_nat stepId + 1) (Description step) in
      let '(blobTestCtx, err) := stepExecute step blobTestCtx in
      match err with
      | Some err =>
          ([info; StepExecute stepId step;
            Fatalf "FAIL: Error executing step %d: %v" (Z.of_nat stepId + 1) err],
           blobTestCtx, FailedNow)
      | None =>
          let '(events, blobTestCtx, outcome) :=
            rangeSteps (S stepId) rest blobTestCtx in
          (info :: StepExecute stepId step :: events, blobTestCtx, outcome)
      end
  end.

(** The context that the steps share: [&BlobTestContext{Env: t,
    TestBlobTxPool: new(TestBlobTxPool)}], read after the write of the
    payload delay through [t]. *)
Definition newContext (bs : BlobsBaseSpec.t) (t : test.Env) : BlobTestContext.t :=
  let blobTestCtx :=
    {| BlobTestContext.Env := t;
       BlobTestContext.TestBlobTxPool := new_TestBlobTxPool |} in
  if decide (BlobsBaseSpec.GetPayloadDelay bs ≠ 0) then
    {| BlobTestContext.Env :=
         {| test.CLMock :=
              {| test.PayloadProductionClientDelay :=
                   time.Seconds (BlobsBaseSpec.GetPayloadDelay bs) |} |};
       BlobTestContext.TestBlobTxPool :=
         BlobTestContext.TestBlobTxPool blobTestCtx |}
  else blobTestCtx.

Definition Execute (bs : BlobsBaseSpec.t) (t : test.Env)
  : list Event * option BlobTestContext.t * Outcome :=
  match WaitForTTD t with
  | None => ([], None, FailedNow)
  | Some t =>
      let '(events, blobTestCtx, outcome) :=
        rangeSteps 0 (BlobsBaseSpec.BlobTestSequence bs) (newContext bs t) in
      (events, Some blobTestCtx, outcome)
  end.

(** The steps that a trace shows as executed, in trace order. *)
Definition executed (events : list Event) : list (nat * TestStep) :=
  omap (fun ev => match ev with StepExecute i s => Some (i, s) | _ => None end) events.

(** [succeed steps i c c']: run from context [c], every step of [steps]
    returns a nil error, and the context ends as [c']. *)
Inductive succeed : BlobTestSequence -> BlobTestContext.t -> BlobTestContext.t -> Prop :=
| succeed_nil c : succeed [] c c
| succeed_cons step rest c c' c'' :
    stepExecute step c = (c', None) ->
    succeed rest c' c'' ->
    succeed (step :: rest) c c''.

(** The log line and the execution mark of each step of [steps], the
    first of which has index [stepId]. *)
Fixpoint stepEvents (stepId : nat) (steps : BlobTestSequence) : list Event :=
  match steps with
  | [] => []
  | step :: rest =>
      Logf "INFO: Executing step %d: %s" (Z.of_nat stepId + 1) (Description step)
      :: StepExecute stepId step
      :: stepEvents (S stepId) rest
  end.

End Execute.

(** *** A run to try the sequencer on

    Three steps, the second of which reports an error. *)
Definition demoDescription (step : TestStep) : string :=
  match step with
  | SendBlobTransactions _ => "SendBlobTransactions"
  | NewPayloads _ => "NewPayloads"
  | LaunchClients _ => "LaunchClients"
  | SendModifiedLatestPayload _ => "SendModifiedLatestPayload"
  end.

Definition demoExecute (step : TestStep) (ctx : BlobTestContext.t)
  : BlobTestContext.t * option error :=
  match step with
  | SendModifiedLatestPayload _ => (ctx, Some (errors_New "unexpected status"))
  | _ => (ctx, None)
  end.

Definition demoLaunch : TestStep :=
  LaunchClients {|
    LaunchClients.EngineStarter := HiveRPCEngineStarter;
    LaunchClients.SkipAddingToCLMock := true;
    LaunchClients.SkipConnectingToBootnode := true
  |}.

Definition demoModified : TestStep :=
  SendModifiedLatestPayload {|
    SendModifiedLatestPayload.ClientID := 1;
    SendModifiedLatestPayload.VersionedHashes := None;
    SendModifiedLatestPayload.ExpectedStatus := test.Invalid
  |}.

Definition demoPayload : TestStep :=
  NewPayloads {|
    NewPayloads.PayloadCount := 0;
    NewPayloads.ExpectedIncludedBlobCount := 0;
    NewPayloads.ExpectedBlobs := None;
    NewPayloads.VersionedHashes := None;
    NewPayloads.PayloadCustomizer := None;
    NewPayloads.GetPayloadDelay := 0
  |}.

Definition demoSpec : BlobsBaseSpec.t := {|
  BlobsBaseSpec.Spec := {| test.Name := "demo"; test.About := "" |};
  BlobsBaseSpec.TimeIncrements := 0;
  BlobsBaseSpec.GetPayloadDelay := 2;
  BlobsBaseSpec.BlobsForkHeight := 0;
  BlobsBaseSpec.BlobTestSequence := [demoLaunch; demoModified; demoPayload]
|}.

Definition demoEnv : test.Env :=
  {| test.CLMock := {| test.PayloadProductionClientDelay := 0 |} |}.

(* =================================================================== *)
(** ** Compositions used by the further properties                      *)
(* =================================================================== *)

(** [pool.AddBlobTransaction(tx)] for each transaction of [txs], in
    order; [None] if one of the calls panics. *)
Fixpoint addAll (pool : TestBlobTxPool) (txs : list e_typ.Transaction)
  : option TestBlobTxPool :=
  match txs with
  | [] => Some pool
  | tx :: rest =>
      match AddBlobTransaction pool tx with
      | None => None
      | Some pool => addAll pool rest
      end
  end.

(** [len(pool.Transactions)]; the length of a nil map is 0. *)
Definition poolSize (pool : TestBlobTxPool) : nat :=
  match Transactions pool with
  | None => 0%nat
  | Some m => size m
  end.

(** The transaction [tx] as a node may return it: under another hash. *)
Definition withHash (hash : common.Hash) (tx : e_typ.Transaction)
  : e_typ.Transaction := {|
  e_typ.Hash := hash;
  e_typ.Nonce := e_typ.Nonce tx;
  e_typ.Gas := e_typ.Gas tx;
  e_typ.GasPrice := e_typ.GasPrice tx;
  e_typ.Value := e_typ.Value tx;
  e_typ.To := e_typ.To tx;
  e_typ.Data := e_typ.Data tx;
  e_typ.AccessList := e_typ.AccessList tx;
  e_typ.ChainId := e_typ.ChainId tx;
  e_typ.BlobGas := e_typ.BlobGas tx;
  e_typ.GasFeeCap := e_typ.GasFeeCap tx;
  e_typ.GasTipCap := e_typ.GasTipCap tx;
  e_typ.BlobGasFeeCap := e_typ.BlobGasFeeCap tx;
  e_typ.BlobHashes := e_typ.BlobHashes tx;
  e_typ.Type_ := e_typ.Type_ tx
|}.

(** A second local transaction, under another hash. *)
Definition otherTx : e_typ.Transaction := withHash (replicate 32 xbb) localTx.

(** A node that knows [localTx] only. *)
Definition demoEth : client.Eth := {|
  client.TransactionByHash := fun hash =>
    if decide (hash = e_typ.Hash localTx) then inl (localTx, true)
    else inr (errors_New "not found")
|}.

(** The steps of the whole table that send transactions, and those that
    make payloads. *)
Definition allSendSteps (tests : list BlobsBaseSpec.t) : list SendBlobTransactions.t :=
  flat_map (fun bs => sendSteps (BlobsBaseSpec.BlobTestSequence bs)) tests.

Definition allPayloadSteps (tests : list BlobsBaseSpec.t) : list NewPayloads.t :=
  flat_map (fun bs => payloadSteps (BlobsBaseSpec.BlobTestSequence bs)) tests.

(** The client that a step addresses: [ClientIndex] of a send,
    [ClientID] of a modified payload; the other steps go to the first
    client. *)
Definition stepClient (step : TestStep) : Z :=
  match step with
  | SendBlobTransactions s => SendBlobTransactions.ClientIndex s
  | SendModifiedLatestPayload s => SendModifiedLatestPayload.ClientID s
  | _ => 0
  end.

Definition isLaunch (step : TestStep) : bool :=
  match step with
  | LaunchClients _ => true
  | _ => false
  end.

(** Every step of [seq] addresses a client that runs: the first one, or
    one of the [launched] clients started by an earlier [LaunchClients]. *)
Fixpoint clientsRunning (launched : Z) (seq : BlobTestSequence) : bool :=
  match seq with
  | [] => true
  | step :: rest =>
      bool_decide (0 <= stepClient step <= launched)
      && clientsRunning (if isLaunch step then launched + 1 else launched) rest
  end.

(** Every send of [seq] that replaces transactions comes after a send
    from the same account; [sent] lists the accounts that have sent. *)
Fixpoint replacesAfterSend (sent : list Z) (seq : BlobTestSequence) : bool :=
  match seq with
  | [] => true
  | SendBlobTransactions s :: rest =>
      (negb (SendBlobTransactions.ReplaceTransactions s)
       || bool_decide (SendBlobTransactions.AccountIndex s ∈ sent))
      && replacesAfterSend (SendBlobTransactions.AccountIndex s :: sent) rest
  | _ :: rest => replacesAfterSend sent rest
  end.

(** The kinds of events of a run. *)
Definition isFatalf (ev : Event) : bool :=
  match ev with
  | Fatalf _ _ _ => true
  | _ => false
  end.

Definition isLogf (ev : Event) : bool :=
  match ev with
  | Logf _ _ _ => true
  | _ => false
  end.

Definition isStepExecute (ev : Event) : bool :=
  match ev with
  | StepExecute _ _ => true
  | _ => false
  end.

(** Wherever a step stands in [seq], it addresses the first client or one
    that a [LaunchClients] step before it has started. *)
Definition addressesRunningClients (seq : BlobTestSequence) : Prop :=
  forall pre step post,
    seq = pre ++ step :: post ->
    0 <= stepClient step <= Z.of_nat (length (filter (fun s => isLaunch s = true) pre)).

(** Wherever a send of [seq] has the replace flag, a send from the same
    account stands before it. *)
Definition replacesOnlyAfterSend (seq : BlobTestSequence) : Prop :=
  forall pre s post,
    seq = pre ++ SendBlobTransactions s :: post ->
    SendBlobTransactions.ReplaceTransactions s = true ->
    exists s', SendBlobTransactions s' ∈ pre
               /\ SendBlobTransactions.AccountIndex s'
                  = SendBlobTransactions.AccountIndex s.

(** The launch steps of the whole table. *)
Definition allLaunchSteps (tests : list BlobsBaseSpec.t) : list LaunchClients.t :=
  flat_map (fun bs =>
    omap (fun step => match step with LaunchClients s => Some s | _ => None end)
         (BlobsBaseSpec.BlobTestSequence bs)) tests.

(** [helper.GetBlobList] as its name and its use say: the [count] blob
    ids from [startId] on. *)
Definition blobListFrom (startId : helper.BlobID) (count : Z)
  : option (list helper.BlobID) :=
  Some (seqZ startId count).

End suite_blobs.

(* ===================================================================== *)
(** * Theorems                                                            *)
(* ===================================================================== *)

(** ** [crypto/sha256] *)

Example Sum256_abc :
  sha256.Sum256 [x61; x62; x63] =
    [xba; x78; x16; xbf; x8f; x01; xcf; xea; x41; x41; x40; xde; x5d; xae; x22; x23;
     xb0; x03; x61; xa3; x96; x17; x7a; x9c; xb4; x10; xff; x61; xf2; x00; x15; xad].
Proof. vm_compute. reflexivity. Qed.

Example Sum256_empty :
  sha256.Sum256 [] =
    [xe3; xb0; xc4; x42; x98; xfc; x1c; x14; x9a; xfb; xf4; xc8; x99; x6f; xb9; x24;
     x27; xae; x41; xe4; x64; x9b; x93; x4c; xa4; x95; x99; x1b; x78; x52; xb8; x55].
Proof. vm_compute. reflexivity. Qed.

(** A message of 56 bytes: its padding spills into a second block. *)
Example Sum256_two_blocks :
  sha256.Sum256 [x61; x62; x63; x64; x62; x63; x64; x65; x63; x64; x65; x66; x64; x65; x66; x67;
   x65; x66; x67; x68; x66; x67; x68; x69; x67; x68; x69; x6a; x68; x69; x6a; x6b;
   x69; x6a; x6b; x6c; x6a; x6b; x6c; x6d; x6b; x6c; x6d; x6e; x6c; x6d; x6e; x6f;
   x6d; x6e; x6f; x70; x6e; x6f; x70; x71] =
    [x24; x8d; x6a; x61; xd2; x06; x38; xb8; xe5; xc0; x26; x93; x0c; x3e; x60; x39;
     xa3; x3c; xe4; x59; x64; xff; x21; x67; xf6; xec; xed; xd4; x19; xdb; x06; xc1].
Proof. vm_compute. reflexivity. Qed.

Lemma be_length width x : length (sha256.be width x) = width.
Proof. unfold sha256.be. rewrite length_map, length_rev, length_seq. reflexivity. Qed.

Lemma Sum256_length data : length (sha256.Sum256 data) = 32%nat.
Proof.
  unfold sha256.Sum256.
  destruct (sha256.blocks _ _ _) as [[[[[[[a b] c] d] e] f] g] h].
  unfold sha256.digest.
  rewrite length_map, !length_app, !be_length. reflexivity.
Qed.

(** ** [common.BytesToHash] *)

Lemma BytesToHash_length b : length (common.BytesToHash b) = common.HashLength.
Proof.
  unfold common.BytesToHash, common.SetBytes, common.HashLength.
  case_decide as Hlen.
  - rewrite length_app, length_replicate, length_drop. lia.
  - rewrite length_app, length_replicate. lia.
Qed.

Lemma BytesToHash_exact b :
  length b = common.HashLength -> common.BytesToHash b = b.
Proof.
  intros Hb. unfold common.BytesToHash, common.SetBytes.
  rewrite Hb. case_decide; [lia|].
  rewrite Hb, Nat.sub_diag. reflexivity.
Qed.

Example BytesToHash_short :
  common.BytesToHash [x01; x02] = replicate 30 x00 ++ [x01; x02].
Proof. reflexivity. Qed.

Example BytesToHash_long :
  common.BytesToHash ([xff; xfe] ++ replicate 31 x00 ++ [x07])
  = replicate 31 x00 ++ [x07].
Proof. reflexivity. Qed.

(** ** [VersionedHashesFromBlobBundle] *)

Lemma rangeCommitments_length Sum256 v cs : forall i vh,
  length (helper.rangeCommitments Sum256 v i cs vh) = length vh.
Proof.
  induction cs as [|c cs IH]; intros i vh; cbn; [reflexivity|].
  rewrite IH, length_insert. reflexivity.
Qed.

(** The loop writes position [i + k] for the [k]-th commitment left: over a
    slice whose tail is as long as the commitments, it leaves the hashes of
    the commitments, in their order. *)
Lemma rangeCommitments_spec Sum256 v cs : forall i pre post,
  length pre = i -> length post = length cs ->
  helper.rangeCommitments Sum256 v i cs (pre ++ post)
  = pre ++ map (helper.versionedHash Sum256 v) cs.
Proof.
  induction cs as [|c cs IH]; intros i pre post Hpre Hpost.
  - destruct post; [|discriminate]. reflexivity.
  - destruct post as [|h post]; [discriminate|].
    cbn [helper.rangeCommitments map].
    replace (<[i:=helper.versionedHash Sum256 v c]> (pre ++ h :: post))
      with ((pre ++ [helper.versionedHash Sum256 v c]) ++ post).
    + rewrite (IH (S i)).
      * rewrite <- app_assoc. reflexivity.
      * rewrite length_app. cbn. lia.
      * cbn in Hpost. lia.
    + rewrite <- Hpre, <- app_assoc.
      replace (length pre) with (length pre + 0)%nat by lia.
      rewrite insert_app_r. reflexivity.
Qed.

Lemma VersionedHashesFromBlobBundle_map Sum256 bb cs v :
  api.Commitments bb = Some cs ->
  helper.VersionedHashesFromBlobBundle Sum256 (Some bb) v
  = (Some (map (helper.versionedHash Sum256 v) cs), None).
Proof.
  intros Hcs. unfold helper.VersionedHashesFromBlobBundle. rewrite Hcs.
  do 2 f_equal.
  apply (rangeCommitments_spec Sum256 v cs 0 [] (replicate (length cs) common.zeroHash)).
  - reflexivity.
  - apply length_replicate.
Qed.

Example VersionedHashesFromBlobBundle_nil_bundle :
  helper.VersionedHashesFromBlobBundle sha256.Sum256 None x01
  = (None, Some (errors_New "nil blob bundle")).
Proof. reflexivity. Qed.

Example VersionedHashesFromBlobBundle_nil_commitments :
  helper.VersionedHashesFromBlobBundle sha256.Sum256
    (Some {| api.Commitments := None; api.Blobs := Some []; api.Proofs := Some [] |}) x01
  = (None, Some (errors_New "nil commitments")).
Proof. reflexivity. Qed.

Example VersionedHashesFromBlobBundle_no_commitment :
  helper.VersionedHashesFromBlobBundle sha256.Sum256
    (Some {| api.Commitments := Some []; api.Blobs := None; api.Proofs := None |}) x01
  = (Some [], None).
Proof. reflexivity. Qed.

Section VersionedHashesTheory.

Variable Sum256 : list byte -> list byte.
Hypothesis Sum256_len : forall m, length (Sum256 m) = 32%nat.

Lemma versionedHash_eq v c :
  helper.versionedHash Sum256 v c = v :: drop 1 (Sum256 c).
Proof.
  unfold helper.versionedHash. apply BytesToHash_exact.
  cbn. rewrite length_drop, Sum256_len. reflexivity.
Qed.

(** C1: for a non-nil bundle with a non-nil commitments list and any version
    byte [v], the function returns without error the list whose [i]-th
    entry is [v] followed by the last 31 bytes of the SHA-256 of the [i]-th
    commitment: 32 bytes, the first of them [v]. *)
Theorem VersionedHashesFromBlobBundle_canonical
    (bb : api.BlobsBundle) (commitments : list (list byte)) (v : byte) :
  api.Commitments bb = Some commitments ->
  exists hashes,
    helper.VersionedHashesFromBlobBundle Sum256 (Some bb) v = (Some hashes, None)
    /\ hashes = map (fun c => [v] ++ drop 1 (Sum256 c)) commitments
    /\ forall (i : nat) (c : list byte), commitments !! i = Some c ->
         exists h, hashes !! i = Some h
           /\ length h = 32%nat
           /\ h !! 0%nat = Some v
           /\ drop 1 h = drop 1 (Sum256 c)
           /\ length (drop 1 h) = 31%nat.
Proof.
  intros Hcs. eexists. split; [apply VersionedHashesFromBlobBundle_map, Hcs|].
  split.
  - apply map_ext. intros c. apply versionedHash_eq.
  - intros i c Hi. exists (v :: drop 1 (Sum256 c)).
    rewrite list_lookup_fmap, Hi. cbn [fmap option_fmap option_map].
    rewrite versionedHash_eq. cbn [length lookup list_lookup drop].
    rewrite !length_drop, !Sum256_len.
    repeat split; reflexivity.
Qed.

End VersionedHashesTheory.

(** The construction run on SHA-256 itself: a bundle with two 48-byte
    commitments, version byte [0x01]. *)
Lemma VersionedHashesFromBlobBundle_canonical_witness :
  let c0 : list byte := [x00; x01; x02; x03; x04; x05; x06; x07; x08; x09; x0a; x0b; x0c; x0d; x0e; x0f;
           x10; x11; x12; x13; x14; x15; x16; x17; x18; x19; x1a; x1b; x1c; x1d; x1e; x1f;
           x20; x21; x22; x23; x24; x25; x26; x27; x28; x29; x2a; x2b; x2c; x2d; x2e; x2f] in
  let c1 : list byte := [xc0; x00; x00; x00; x00; x00; x00; x00; x00; x00; x00; x00; x00; x00; x00; x00;
           x00; x00; x00; x00; x00; x00; x00; x00; x00; x00; x00; x00; x00; x00; x00; x00;
           x00; x00; x00; x00; x00; x00; x00; x00; x00; x00; x00; x00; x00; x00; x00; x00] in
  let bb := {| api.Commitments := Some [c0; c1]; api.Blobs := None; api.Proofs := None |} in
  helper.VersionedHashesFromBlobBundle sha256.Sum256 (Some bb) x01
  = (Some [[x01; xbd; xc2; xb2; xb6; x2c; xb0; x07; x49; x78; x5b; xc8; x42; x02; x23; x6d;
             xbc; x37; x77; xd7; x46; x60; x61; x1b; x8e; x58; x81; x2f; x0c; xfd; xe6; xc3];
           [x01; x06; x57; xf3; x75; x54; xc7; x81; x40; x2a; x22; x91; x7d; xee; x2f; x75;
             xde; xf7; xab; x96; x6d; x7b; x77; x09; x05; x39; x8e; xba; x3c; x44; x40; x14]],
     None).
Proof.
  intros c0 c1 bb.
  destruct (VersionedHashesFromBlobBundle_canonical sha256.Sum256 Sum256_length
              bb [c0; c1] x01 eq_refl) as (hashes & -> & -> & _).
  vm_compute. reflexivity.
Defined.

(** C9: an error is returned exactly for a nil bundle or nil commitments;
    otherwise the returned list is as long as the commitments. *)
Theorem VersionedHashesFromBlobBundle_error_iff
    (Sum256 : list byte -> list byte) (bb : option api.BlobsBundle) (v : byte) :
  let result := helper.VersionedHashesFromBlobBundle Sum256 bb v in
  (is_Some (snd result) <->
     bb = None \/ exists b, bb = Some b /\ api.Commitments b = None)
  /\ (snd result = None <->
       exists b commitments hashes,
         bb = Some b /\ api.Commitments b = Some commitments
         /\ fst result = Some hashes
         /\ length hashes = length commitments).
Proof.
  cbn zeta. unfold helper.VersionedHashesFromBlobBundle.
  destruct bb as [b|]; [destruct (api.Commitments b) as [cs|] eqn:Hcs|]; cbn.
  - split; split.
    + intros [e He]; discriminate.
    + intros [?|(b' & Hb & Hn)]; [discriminate|].
      injection Hb as <-. congruence.
    + intros _. exists b, cs. eexists. repeat split; [exact Hcs|].
      rewrite rangeCommitments_length, length_replicate. reflexivity.
    + reflexivity.
  - split; split.
    + intros _. right. exists b. auto.
    + intros _. eexists; reflexivity.
    + discriminate.
    + intros (b' & cs & hs & Hb & Hc & _). injection Hb as <-. congruence.
  - split; split.
    + intros _. left; reflexivity.
    + intros _. eexists; reflexivity.
    + discriminate.
    + intros (b' & cs & hs & Hb & _). discriminate.
Qed.

Import suite_blobs.

(** ** [TestBlobTxPool] *)

Lemma AddBlobTransaction_eq pool tx :
  AddBlobTransaction pool tx
  = Some {| Transactions :=
              Some (<[e_typ.Hash tx := tx]> (default ∅ (Transactions pool))) |}.
Proof.
  unfold AddBlobTransaction. destruct pool as [[m|]]; reflexivity.
Qed.

(** C5: adding [tx] stores it under [tx.Hash()] whatever was stored there,
    leaves the entries under other hashes as they were, and adding the
    same transaction again changes nothing. *)
Theorem AddBlobTransaction_insert_idempotent
    (pool : TestBlobTxPool) (tx : e_typ.Transaction) :
  exists pool',
    AddBlobTransaction pool tx = Some pool'
    /\ poolLookup pool' (e_typ.Hash tx) = Some tx
    /\ (forall hash, hash <> e_typ.Hash tx ->
          poolLookup pool' hash = poolLookup pool hash)
    /\ AddBlobTransaction pool' tx = Some pool'.
Proof.
  rewrite AddBlobTransaction_eq. eexists. split; [reflexivity|].
  split; [|split].
  - unfold poolLookup, map_index. cbn. apply lookup_insert_eq.
  - intros hash Hne. unfold poolLookup, map_index. cbn.
    rewrite lookup_insert_ne by congruence.
    destruct pool as [[m|]]; cbn; [reflexivity|apply lookup_empty].
  - rewrite AddBlobTransaction_eq. cbn. rewrite insert_insert_eq. reflexivity.
Qed.

(** An entry already stored under the hash of [tx] is replaced. *)
Lemma AddBlobTransaction_overwrites pool tx0 tx pool0 pool1 :
  e_typ.Hash tx0 = e_typ.Hash tx ->
  AddBlobTransaction pool tx0 = Some pool0 ->
  AddBlobTransaction pool0 tx = Some pool1 ->
  poolLookup pool1 (e_typ.Hash tx0) = Some tx
  /\ AddBlobTransaction pool tx = Some pool1.
Proof.
  intros Hh. rewrite !AddBlobTransaction_eq. intros [= <-]. cbn. intros [= <-].
  split.
  - unfold poolLookup, map_index. cbn. rewrite Hh. apply lookup_insert_eq.
  - rewrite Hh, insert_insert_eq. reflexivity.
Qed.

(** Without the guard, the assignment into the nil map would panic. *)
Lemma map_assign_nil_panics (hash : common.Hash) (tx : e_typ.Transaction) :
  map_assign (Transactions new_TestBlobTxPool) hash tx = None.
Proof. reflexivity. Qed.

(** C10: on a fresh pool, whose map is nil, the call does not panic: the
    map is made first, it then holds [tx] alone, and looking up
    [tx.Hash()] finds [tx]. *)
Theorem AddBlobTransaction_fresh_pool (tx : e_typ.Transaction) :
  Transactions new_TestBlobTxPool = None
  /\ exists pool',
       AddBlobTransaction new_TestBlobTxPool tx = Some pool'
       /\ Transactions pool' = Some {[ e_typ.Hash tx := tx ]}
       /\ poolLookup pool' (e_typ.Hash tx) = Some tx
       /\ forall hash tx', poolLookup pool' hash = Some tx' ->
            hash = e_typ.Hash tx /\ tx' = tx.
Proof.
  split; [reflexivity|]. eexists. split; [reflexivity|]. cbn.
  split; [reflexivity|]. split.
  - unfold poolLookup, map_index. cbn. apply lookup_insert_eq.
  - intros hash tx'. unfold poolLookup, map_index. cbn.
    intros Hl. apply lookup_insert_Some in Hl as [[<- <-]|[_ Hl]]; [auto|].
    rewrite lookup_empty in Hl. discriminate.
Qed.

(** ** [VerifyTransactionFromNode] *)

Lemma Cmp_nonzero x y : big.Cmp x y <> 0 <-> x <> y.
Proof.
  unfold big.Cmp. destruct (Z.compare_spec x y); split; intros; try lia; congruence.
Qed.

Lemma firstError_failIf cond err rest :
  firstError (failIf cond err :: rest)
  = if cond then Some err else firstError rest.
Proof. destruct cond; reflexivity. Qed.

Section FirstError.

Context {A : Type} (check : A -> bool) (report : A -> error).

Lemma firstError_None (fs : list A) :
  firstError (map (fun f => failIf (check f) (report f)) fs) = None
  <-> forall f, f ∈ fs -> check f = false.
Proof.
  induction fs as [|f fs IH]; cbn [map].
  - split; [intros _ f Hf; inversion Hf | reflexivity].
  - rewrite firstError_failIf. destruct (check f) eqn:Hc.
    + split; [discriminate|]. intros Hall.
      rewrite (Hall f) in Hc by constructor. discriminate.
    + rewrite IH. split.
      * intros Hall g Hg. inversion Hg; subst; auto.
      * intros Hall g Hg. apply Hall. now constructor.
Qed.

Lemma firstError_Some (fs : list A) (err : error) :
  firstError (map (fun f => failIf (check f) (report f)) fs) = Some err
  <-> exists pre f post,
        fs = pre ++ f :: post
        /\ (forall g, g ∈ pre -> check g = false)
        /\ check f = true
        /\ err = report f.
Proof.
  induction fs as [|f fs IH]; cbn [map].
  - split; [discriminate|]. intros (pre & g & post & Heq & _).
    destruct pre; discriminate.
  - rewrite firstError_failIf. destruct (check f) eqn:Hc.
    + split.
      * intros [= <-]. exists [], f, fs. repeat split; auto.
        intros g Hg. inversion Hg.
      * intros (pre & g & post & Heq & Hpre & Hg & ->).
        destruct pre as [|p pre]; cbn in Heq; injection Heq as <- ->; [reflexivity|].
        rewrite (Hpre f) in Hc by constructor. discriminate.
    + rewrite IH. split.
      * intros (pre & g & post & -> & Hpre & Hg & ->).
        exists (f :: pre), g, post. repeat split; auto.
        intros g' Hg'. inversion Hg'; subst; auto.
      * intros (pre & g & post & Heq & Hpre & Hg & ->).
        destruct pre as [|p pre]; cbn in Heq; injection Heq as <- ->.
        -- congruence.
        -- exists pre, g, post. repeat split; auto.
           intros g' Hg'. apply Hpre. now constructor.
Qed.

End FirstError.

(** The verifier is the run of its fourteen tests, in the order of
    [txFields], each with the message of its field. *)
Lemma compareTxFields_checks Hex returnedTx tx :
  compareTxFields Hex returnedTx tx
  = firstError (map (fun f => failIf (fieldCheck Hex f returnedTx tx)
                                (mismatchReport Hex f returnedTx tx)) txFields).
Proof. reflexivity. Qed.

(** The messages, as the source spells them. *)
Lemma mismatchReport_formats Hex returnedTx tx :
  map (fun f => match mismatchReport Hex f returnedTx tx with
                | fmt_Errorf format _ => format
                | errors_New text => text
                end) txFields
  = [ "nonce mismatch: %d != %d"; "gas mismatch: %d != %d";
      "gas price mismatch: %d != %d"; "value mismatch: %d != %d";
      "to mismatch: %s != %s"; "data mismatch: %s != %s";
      "access list mismatch: %v != %v"; "chain id mismatch: %d != %d";
      "data gas mismatch: %d != %d"; "max fee per gas mismatch: %d != %d";
      "max priority fee per gas mismatch: %d != %d";
      "max fee per data gas mismatch: %d != %d";
      "blob versioned hashes mismatch: %v != %v"; "type mismatch: %d != %d" ].
Proof. reflexivity. Qed.

Lemma txFields_all f : f ∈ txFields.
Proof. destruct f; unfold txFields; set_solver. Qed.

Lemma txFields_NoDup : NoDup txFields.
Proof. apply (bool_decide_unpack (NoDup txFields)). vm_compute. exact I. Qed.

Lemma bothSetAnd_true {A} (differ : A -> A -> bool) (a b : option A) :
  bothSetAnd differ a b = true
  <-> exists x y, a = Some x /\ b = Some y /\ differ x y = true.
Proof.
  destruct a as [x|], b as [y|]; cbn; split;
    try discriminate; try (intros (? & ? & ? & ? & ?); discriminate).
  - intros Hd. exists x, y. auto.
  - intros (x' & y' & [= <-] & [= <-] & Hd). exact Hd.
Qed.

Lemma guarded_differs {A} `{EqDecision A} (a b : option A) :
  bothSetAnd (fun x y => negb (bool_decide (x = y))) a b = true
  <-> a <> b /\ is_Some a /\ is_Some b.
Proof.
  rewrite bothSetAnd_true. split.
  - intros (x & y & -> & -> & Hd). apply negb_true_iff, bool_decide_eq_false in Hd.
    split; [congruence|]. split; eexists; reflexivity.
  - intros (Hne & [x ->] & [y ->]). exists x, y. repeat split.
    apply negb_true_iff, bool_decide_eq_false. congruence.
Qed.

Section VerifyTheory.

Variable Hex : common.Address -> string.
Hypothesis Hex_inj : forall a b, Hex a = Hex b -> a = b.

(** A test fires exactly when its field differs and, for a field that can
    be nil, is nil on neither side. *)
Lemma fieldCheck_spec f returnedTx tx :
  fieldCheck Hex f returnedTx tx = true
  <-> fieldDiffers f returnedTx tx /\ fieldSet f returnedTx tx.
Proof.
  destruct f; cbn [fieldCheck fieldDiffers fieldSet];
    rewrite ?bool_decide_eq_true, ?Cmp_nonzero, ?guarded_differs;
    try tauto.
  rewrite bothSetAnd_true. split.
  - intros (x & y & Hx & Hy & Hd). apply bool_decide_eq_true in Hd.
    rewrite Hx, Hy. split; [congruence|]. split; eexists; reflexivity.
  - intros (Hne & [x Hx] & [y Hy]). exists x, y. repeat split; auto.
    apply bool_decide_eq_true. intros Heq. apply Hne.
    rewrite Hx, Hy. f_equal. auto.
Qed.

Lemma fieldCheck_false f returnedTx tx :
  fieldCheck Hex f returnedTx tx = false
  <-> ~ (fieldDiffers f returnedTx tx /\ fieldSet f returnedTx tx).
Proof. rewrite <- fieldCheck_spec. destruct (fieldCheck _ _ _ _); split; congruence. Qed.

(** C2, as the code has it: nil is returned exactly when no field differs
    with both sides set; a field that alone differs so is reported by the
    message that names it and carries both values; and every error is the
    report of the first such field in the verifier's order. *)
Theorem compareTxFields_contract (returnedTx tx : e_typ.Transaction) :
  (compareTxFields Hex returnedTx tx = None
   <-> forall f, ~ (fieldDiffers f returnedTx tx /\ fieldSet f returnedTx tx))
  /\ (forall f,
        fieldDiffers f returnedTx tx -> fieldSet f returnedTx tx ->
        (forall g, g <> f -> ~ (fieldDiffers g returnedTx tx /\ fieldSet g returnedTx tx)) ->
        compareTxFields Hex returnedTx tx = Some (mismatchReport Hex f returnedTx tx))
  /\ (forall err,
        compareTxFields Hex returnedTx tx = Some err ->
        exists pre f post,
          txFields = pre ++ f :: post
          /\ (forall g, g ∈ pre ->
                ~ (fieldDiffers g returnedTx tx /\ fieldSet g returnedTx tx))
          /\ fieldDiffers f returnedTx tx /\ fieldSet f returnedTx tx
          /\ err = mismatchReport Hex f returnedTx tx).
Proof.
  rewrite compareTxFields_checks.
  assert (Hsome : forall err,
    firstError (map (fun f => failIf (fieldCheck Hex f returnedTx tx)
                                (mismatchReport Hex f returnedTx tx)) txFields)
      = Some err ->
    exists pre f post,
      txFields = pre ++ f :: post
      /\ (forall g, g ∈ pre ->
            ~ (fieldDiffers g returnedTx tx /\ fieldSet g returnedTx tx))
      /\ fieldDiffers f returnedTx tx /\ fieldSet f returnedTx tx
      /\ err = mismatchReport Hex f returnedTx tx).
  { intros err Herr. apply firstError_Some in Herr
      as (pre & f & post & Heq & Hpre & Hf & ->).
    exists pre, f, post. apply fieldCheck_spec in Hf as [Hd Hs].
    repeat split; auto. intros g Hg. apply fieldCheck_false, Hpre, Hg. }
  split; [|split].
  - rewrite firstError_None. split.
    + intros Hall f. apply fieldCheck_false, Hall, txFields_all.
    + intros Hall f _. apply fieldCheck_false, Hall.
  - intros f Hd Hs Hothers.
    destruct (firstError _) as [err|] eqn:Herr.
    + destruct (Hsome err eq_refl) as (pre & g & post & _ & _ & Hgd & Hgs & ->).
      destruct (decide (g = f)) as [->|Hne]; [reflexivity|].
      destruct (Hothers g Hne). auto.
    + exfalso. rewrite firstError_None in Herr.
      specialize (Herr f (txFields_all f)).
      apply fieldCheck_false in Herr. auto.
  - exact Hsome.
Qed.

End VerifyTheory.

(** *** The stand-in [plainHex] is injective *)

Lemma undigit_digit n : (n < 16)%N -> hex.undigit (hex.digit n) = n.
Proof.
  intros Hn. rewrite <- (N2Nat.id n) in *.
  assert (Hk : (N.to_nat n < 16)%nat) by lia.
  destruct (N.to_nat n) as [|k]; [reflexivity|].
  do 15 (destruct k as [|k]; [reflexivity|]). lia.
Qed.

Lemma to_N_inj (a b : byte) : Byte.to_N a = Byte.to_N b -> a = b.
Proof.
  intros Heq. assert (H : Some a = Some b); [|congruence].
  rewrite <- !Byte.of_to_N. rewrite Heq. reflexivity.
Qed.

Lemma EncodeToString_inj a : forall b,
  hex.EncodeToString a = hex.EncodeToString b -> a = b.
Proof.
  induction a as [|x a IH]; intros [|y b]; cbn; try discriminate; [reflexivity|].
  intros [= Hhi Hlo Hrest]. f_equal; [|auto].
  apply to_N_inj.
  pose proof (Byte.to_N_bounded x). pose proof (Byte.to_N_bounded y).
  apply (f_equal hex.undigit) in Hhi, Hlo.
  rewrite !undigit_digit in Hhi, Hlo
    by (try apply N.mod_upper_bound; try apply N.Div0.div_lt_upper_bound; lia).
  rewrite (N.div_mod (Byte.to_N x) 16), (N.div_mod (Byte.to_N y) 16) by lia.
  congruence.
Qed.

Lemma plainHex_inj a b : plainHex a = plainHex b -> a = b.
Proof. unfold plainHex. cbn. intros [= H]. apply EncodeToString_inj, H. Qed.

(** The contract at a fetched transaction whose nonce alone differs. *)
Lemma compareTxFields_contract_witness :
  compareTxFields plainHex fetchedTxNonce8 localTx
  = Some (fmt_Errorf "nonce mismatch: %d != %d" [ArgUint 8; ArgUint 7]).
Proof.
  destruct (compareTxFields_contract plainHex plainHex_inj fetchedTxNonce8 localTx)
    as (_ & Hsingle & _).
  apply (Hsingle FieldNonce).
  - cbn. lia.
  - exact I.
  - intros g Hg [Hd _]. destruct g; cbn in Hd; congruence.
Defined.

(** The destination differs (the fetched transaction has none), and the
    verifier returns nil. *)
Lemma compareTxFields_nil_destination_passes :
  fieldDiffers FieldTo fetchedTxNoTo localTx
  /\ compareTxFields plainHex fetchedTxNoTo localTx = None.
Proof. split; [cbn; discriminate | vm_compute; reflexivity]. Qed.

(** The same through the whole function, on a node that returns the
    transaction without its destination. *)
Lemma VerifyTransactionFromNode_nil_destination_passes :
  VerifyTransactionFromNode plainHex
    {| client.TransactionByHash := fun _ => inl (fetchedTxNoTo, false) |} localTx
  = None.
Proof. vm_compute. reflexivity. Qed.

Lemma VerifyTransactionFromNode_eq Hex eth tx :
  VerifyTransactionFromNode Hex eth tx
  = match client.TransactionByHash eth (e_typ.Hash tx) with
    | inr err => Some err
    | inl (returnedTx, _) => compareTxFields Hex returnedTx tx
    end.
Proof. reflexivity. Qed.

(** ** [BlobsBaseSpec.Execute] *)

Section ExecuteTheory.

Variable Description : TestStep -> string.
Variable stepExecute :
  TestStep -> BlobTestContext.t -> BlobTestContext.t * option error.
Variable WaitForTTD : test.Env -> option test.Env.

Lemma stepEvents_app i pre post :
  stepEvents Description i (pre ++ post)
  = stepEvents Description i pre
    ++ stepEvents Description (i + length pre) post.
Proof.
  revert i. induction pre as [|s pre IH]; intros i; cbn.
  - rewrite Nat.add_0_r. reflexivity.
  - rewrite IH. replace (S i + length pre)%nat with (i + S (length pre))%nat by lia.
    reflexivity.
Qed.

(** The steps that the log marks as executed are the steps themselves,
    numbered from the first index on. *)
Lemma executed_stepEvents i steps :
  executed (stepEvents Description i steps) = zip (seq i (length steps)) steps.
Proof.
  revert i. induction steps as [|s steps IH]; intros i; cbn; [reflexivity|].
  f_equal. apply IH.
Qed.

Lemma executed_app ev1 ev2 : executed (ev1 ++ ev2) = executed ev1 ++ executed ev2.
Proof. unfold executed. apply omap_app. Qed.

(** When every step succeeds the loop runs them all, in order. *)
Lemma rangeSteps_succeed steps : forall i ctx ctx',
  succeed stepExecute steps ctx ctx' ->
  rangeSteps Description stepExecute i steps ctx
  = (stepEvents Description i steps, ctx', Returned).
Proof.
  induction steps as [|s steps IH]; intros i ctx ctx' Hok;
    inversion Hok; subst; cbn; [reflexivity|].
  match goal with H : stepExecute _ _ = _ |- _ => rewrite H end.
  erewrite IH by eassumption. reflexivity.
Qed.

(** When [step] is the first to return an error, the loop runs the steps
    up to it, reports it under its number, and runs none of [post]. *)
Lemma rangeSteps_fail pre : forall i step post ctx ctx1 ctx2 err,
  succeed stepExecute pre ctx ctx1 ->
  stepExecute step ctx1 = (ctx2, Some err) ->
  rangeSteps Description stepExecute i (pre ++ step :: post) ctx
  = (stepEvents Description i (pre ++ [step])
       ++ [Fatalf "FAIL: Error executing step %d: %v"
             (Z.of_nat (i + length pre) + 1) err],
     ctx2, FailedNow).
Proof.
  induction pre as [|s pre IH]; intros i step post ctx ctx1 ctx2 err Hok Hfail;
    inversion Hok; subst; cbn.
  - rewrite Hfail, Nat.add_0_r. reflexivity.
  - match goal with H : stepExecute s _ = _ |- _ => rewrite H end.
    erewrite IH by eassumption.
    replace (S i + length pre)%nat with (i + S (length pre))%nat by lia.
    reflexivity.
Qed.

(** Every sequence either succeeds throughout or has a first failing
    step. *)
Lemma succeed_or_first_failure steps : forall ctx,
  (exists ctx', succeed stepExecute steps ctx ctx')
  \/ (exists pre step post ctx1 ctx2 err,
        steps = pre ++ step :: post
        /\ succeed stepExecute pre ctx ctx1
        /\ stepExecute step ctx1 = (ctx2, Some err)).
Proof.
  induction steps as [|s steps IH]; intros ctx.
  - left. eexists. constructor.
  - destruct (stepExecute s ctx) as [ctx' [err|]] eqn:Hs.
    + right. exists [], s, steps, ctx, ctx', err.
      repeat split; [constructor | exact Hs].
    + destruct (IH ctx') as [[ctx'' Hok]|(pre & step & post & c1 & c2 & err & -> & Hok & Hf)].
      * left. exists ctx''. econstructor; eassumption.
      * right. exists (s :: pre), step, post, c1, c2, err.
        repeat split; [econstructor; eassumption | exact Hf].
Qed.

(** C3: once the network is ready, [Execute] runs the steps in their
    order on the shared context.  Either all return nil and all are run,
    or the run stops at the first step that returns an error: the steps
    before it and that step are the only ones executed, the failure is
    fatal, and it is reported with the step's number (its position,
    counted from 1) and its error. *)
Theorem Execute_in_order_until_first_error
    (bs : BlobsBaseSpec.t) (t t1 : test.Env) :
  WaitForTTD t = Some t1 ->
  let steps := BlobsBaseSpec.BlobTestSequence bs in
  let run := Execute Description stepExecute WaitForTTD bs t in
  (exists ctx',
      succeed stepExecute steps (newContext bs t1) ctx'
      /\ run = (stepEvents Description 0 steps, Some ctx', Returned)
      /\ executed (fst (fst run)) = zip (seq 0 (length steps)) steps)
  \/ (exists pre step post ctx1 ctx2 err,
        steps = pre ++ step :: post
        /\ succeed stepExecute pre (newContext bs t1) ctx1
        /\ stepExecute step ctx1 = (ctx2, Some err)
        /\ run = (stepEvents Description 0 (pre ++ [step])
                    ++ [Fatalf "FAIL: Error executing step %d: %v"
                          (Z.of_nat (length pre) + 1) err],
                  Some ctx2, FailedNow)
        /\ executed (fst (fst run))
           = zip (seq 0 (S (length pre))) (pre ++ [step])).
Proof.
  intros Hready steps run. subst run. unfold Execute. rewrite Hready.
  destruct (succeed_or_first_failure steps (newContext bs t1))
    as [[ctx' Hok]|(pre & step & post & c1 & c2 & err & Hsteps & Hok & Hf)].
  - left. exists ctx'. fold steps.
    rewrite (rangeSteps_succeed steps 0 _ _ Hok). cbn [fst].
    repeat split; [exact Hok|]. apply executed_stepEvents.
  - right. exists pre, step, post, c1, c2, err. fold steps.
    rewrite Hsteps, (rangeSteps_fail pre 0 step post _ _ _ _ Hok Hf). cbn [fst].
    repeat split; auto.
    replace (S (length pre)) with (length (pre ++ [step]))
      by (rewrite length_app; cbn; lia).
    rewrite executed_app, executed_stepEvents. apply app_nil_r.
Qed.

(** If the bounded wait for the network expires, no step is run. *)
Lemma Execute_not_ready bs t :
  WaitForTTD t = None ->
  Execute Description stepExecute WaitForTTD bs t = ([], None, FailedNow).
Proof. intros Hw. unfold Execute. rewrite Hw. reflexivity. Qed.

End ExecuteTheory.

(** The sequencer on [demoSpec]: the second step fails, the third never
    runs. *)
Lemma Execute_in_order_until_first_error_witness :
  Execute demoDescription demoExecute Some demoSpec demoEnv
  = ([ Logf "INFO: Executing step %d: %s" 1 "LaunchClients";
       StepExecute 0 demoLaunch;
       Logf "INFO: Executing step %d: %s" 2 "SendModifiedLatestPayload";
       StepExecute 1 demoModified;
       Fatalf "FAIL: Error executing step %d: %v" 2 (errors_New "unexpected status") ],
     Some {| BlobTestContext.Env :=
               {| test.CLMock := {| test.PayloadProductionClientDelay := 2000000000 |} |};
             BlobTestContext.TestBlobTxPool := new_TestBlobTxPool |},
     FailedNow).
Proof.
  destruct (Execute_in_order_until_first_error demoDescription demoExecute Some
              demoSpec demoEnv demoEnv eq_refl)
    as [(ctx' & _ & Hrun & _)|_].
  - vm_compute in Hrun. discriminate Hrun.
  - vm_compute. reflexivity.
Defined.

(** ** The test table *)

Lemma blob_constants :
  DATA_GAS_PER_BLOB = 131072
  /\ TARGET_BLOBS_PER_BLOCK = 3
  /\ MAX_BLOBS_PER_BLOCK = 6
  /\ MIN_DATA_GASPRICE = 1.
Proof. repeat split; reflexivity. Qed.

Section TableTheory.

Variable GetBlobList : helper.BlobID -> Z -> option (list helper.BlobID).
Variable GetMinExcessDataBlobsForDataGasPrice : Z -> Z.

Local Abbreviation Tests :=
  (Tests GetBlobList GetMinExcessDataBlobsForDataGasPrice).
Local Abbreviation EXCEED_BLOBS :=
  (DATA_GAS_COST_INCREMENT_EXCEED_BLOBS GetMinExcessDataBlobsForDataGasPrice).

Lemma Tests_length : length Tests = 25%nat.
Proof. reflexivity. Qed.

(** C4: every step of the table that sends a modified payload carries a
    versioned-hash override and expects [Invalid]; there are nine, and
    each of the eight corruption modes is the override of one of them, in
    the scenario that bears its name. *)
Theorem corrupted_hashes_expect_Invalid :
  Forall (fun step =>
            is_Some (SendModifiedLatestPayload.VersionedHashes step)
            /\ SendModifiedLatestPayload.ExpectedStatus step = test.Invalid
            /\ SendModifiedLatestPayload.ExpectedStatus step <> test.Valid
            /\ SendModifiedLatestPayload.ExpectedStatus step <> test.Accepted)
         (allModifiedPayloadSteps Tests)
  /\ length (allModifiedPayloadSteps Tests) = 9%nat
  /\ forall m : CorruptionMode,
       exists bs step,
         findSpec (modeScenario m) Tests = Some bs
         /\ modifiedPayloadSteps (BlobsBaseSpec.BlobTestSequence bs) = [step]
         /\ SendModifiedLatestPayload.VersionedHashes step = Some (modeOverride m)
         /\ SendModifiedLatestPayload.ExpectedStatus step = test.Invalid.
Proof.
  split; [|split].
  - vm_compute. repeat constructor; try (eexists; reflexivity); discriminate.
  - reflexivity.
  - intros m. destruct m; vm_compute; do 2 eexists; repeat split.
Qed.

(** C6: the replacement scenario is four sends of one single-blob
    transaction each, from one account, every send after the first with
    the replace flag, with fee caps and tip caps that grow strictly, and
    then one payload that expects one blob, blob 3.  As the spec has the
    sends allocate nonces and blob ids, the four transactions share nonce
    0 and carry the blobs 0, 1, 2, 3: blob 3 is the one of the
    transaction with the highest fee. *)
Theorem replacement_scenario :
  exists bs s0 s1 s2 s3 np,
    findSpec "Replace Blob Transactions" Tests = Some bs
    /\ BlobsBaseSpec.BlobTestSequence bs
       = [SendBlobTransactions s0; SendBlobTransactions s1;
          SendBlobTransactions s2; SendBlobTransactions s3; NewPayloads np]
    /\ Forall (fun s =>
                 SendBlobTransactions.BlobTransactionSendCount s = 1
                 /\ GetBlobsPerTransaction s = 1
                 /\ SendBlobTransactions.AccountIndex s = 0)
              [s0; s1; s2; s3]
    /\ map SendBlobTransactions.ReplaceTransactions [s0; s1; s2; s3]
       = [false; true; true; true]
    /\ map SendBlobTransactions.BlobTransactionGasFeeCap [s0; s1; s2; s3]
       = map Some [10 ^ 9; 10 ^ 10; 10 ^ 11; 10 ^ 12]
    /\ map SendBlobTransactions.BlobTransactionGasTipCap [s0; s1; s2; s3]
       = map Some [10 ^ 9; 10 ^ 10; 10 ^ 11; 10 ^ 12]
    /\ StronglySorted Z.lt [10 ^ 9; 10 ^ 10; 10 ^ 11; 10 ^ 12]
    /\ GetPayloadCount np = 1
    /\ NewPayloads.ExpectedIncludedBlobCount np = 1
    /\ NewPayloads.ExpectedBlobs np = Some [3]
    /\ expectedPayloads (BlobsBaseSpec.BlobTestSequence bs) = [1]
    /\ map (fun tx => (ptxAccount tx, ptxNonce tx, ptxBlobs tx, ptxGasFeeCap tx))
           (plan (BlobsBaseSpec.BlobTestSequence bs))
       = [ (0, 0, [0], Some (10 ^ 9)); (0, 0, [1], Some (10 ^ 10));
           (0, 0, [2], Some (10 ^ 11)); (0, 0, [3], Some (10 ^ 12)) ].
Proof.
  do 6 eexists. split; [vm_compute; reflexivity|].
  split; [reflexivity|].
  repeat split; try reflexivity.
  - repeat constructor.
  - repeat constructor; lia.
Qed.

(** C7: the multiple-accounts scenario is a send of 5 transactions of
    [MAX_BLOBS_PER_BLOCK - 1] blobs from account 0, a send of 5
    single-blob transactions from account 1, and 5 payloads that each
    expect [MAX_BLOBS_PER_BLOCK] blobs: as many blobs as were sent. *)
Theorem multiple_accounts_scenario :
  exists bs sA sB np,
    findSpec "Blob Transaction Ordering, Multiple Accounts" Tests = Some bs
    /\ BlobsBaseSpec.BlobTestSequence bs
       = [SendBlobTransactions sA; SendBlobTransactions sB; NewPayloads np]
    /\ SendBlobTransactions.BlobTransactionSendCount sA = 5
    /\ GetBlobsPerTransaction sA = MAX_BLOBS_PER_BLOCK - 1
    /\ SendBlobTransactions.AccountIndex sA = 0
    /\ SendBlobTransactions.BlobTransactionSendCount sB = 5
    /\ GetBlobsPerTransaction sB = 1
    /\ SendBlobTransactions.AccountIndex sB = 1
    /\ GetPayloadCount np = 5
    /\ NewPayloads.ExpectedIncludedBlobCount np = MAX_BLOBS_PER_BLOCK
    /\ expectedPayloads (BlobsBaseSpec.BlobTestSequence bs)
       = replicate 5 MAX_BLOBS_PER_BLOCK
    /\ map (fun tx => (ptxAccount tx, Z.of_nat (length (ptxBlobs tx))))
           (plan (BlobsBaseSpec.BlobTestSequence bs))
       = replicate 5 (0, MAX_BLOBS_PER_BLOCK - 1) ++ replicate 5 (1, 1)
    /\ concat (map ptxBlobs (plan (BlobsBaseSpec.BlobTestSequence bs)))
       = seqZ 0 (5 * MAX_BLOBS_PER_BLOCK).
Proof.
  do 4 eexists. split; [vm_compute; reflexivity|].
  split; [reflexivity|].
  repeat split; reflexivity.
Qed.

Lemma EXCEED_BLOBS_range : 0 <= EXCEED_BLOBS < 2 ^ 64.
Proof. unfold DATA_GAS_COST_INCREMENT_EXCEED_BLOBS, u64. apply Z.mod_pos_bound. lia. Qed.

(** C8, as the table has it: the capacity-rollover scenario first sends
    transactions that accept the minimal data gas price only, and expects
    one payload with [TARGET_BLOBS_PER_BLOCK] blobs, the payload that
    takes them in.  It then sends, at the same price, enough full
    transactions to carry the excess blobs past the count at which the
    price rises.  The payloads expected after that are one or more with
    [MAX_BLOBS_PER_BLOCK] blobs, then exactly one with none, then one with
    [MAX_BLOBS_PER_BLOCK] blobs: the expected payloads of the scenario are
    the [TARGET_BLOBS_PER_BLOCK] one followed by these.  When the price
    does not rise before a full payload, the second send holds one
    transaction more than there are full payloads before the empty one,
    the transaction that the last payload takes in. *)
Theorem capacity_rollover_scenario :
  exists bs send1 np1 send2 npFull npEmpty npLast full,
    findSpec "Blob Transactions On Block 1, Cancun Genesis" Tests = Some bs
    /\ BlobsBaseSpec.BlobTestSequence bs
       = [SendBlobTransactions send1; NewPayloads np1;
          SendBlobTransactions send2;
          NewPayloads npFull; NewPayloads npEmpty; NewPayloads npLast]
    /\ SendBlobTransactions.BlobTransactionMaxDataGasCost send1
       = Some MIN_DATA_GASPRICE
    /\ SendBlobTransactions.BlobTransactionSendCount send1 = TARGET_BLOBS_PER_BLOCK
    /\ GetBlobsPerTransaction send1 = 1
    /\ expectedPayloads [NewPayloads np1] = [TARGET_BLOBS_PER_BLOCK]
    /\ SendBlobTransactions.BlobTransactionMaxDataGasCost send2
       = Some MIN_DATA_GASPRICE
    /\ GetBlobsPerTransaction send2 = MAX_BLOBS_PER_BLOCK
    /\ EXCEED_BLOBS
       < SendBlobTransactions.BlobTransactionSendCount send2
         * (MAX_BLOBS_PER_BLOCK - TARGET_BLOBS_PER_BLOCK)
    /\ (1 <= full)%nat
    /\ expectedPayloads [NewPayloads npFull; NewPayloads npEmpty; NewPayloads npLast]
       = replicate full MAX_BLOBS_PER_BLOCK ++ [0] ++ [MAX_BLOBS_PER_BLOCK]
    /\ expectedPayloads [NewPayloads npFull] = replicate full MAX_BLOBS_PER_BLOCK
    /\ expectedPayloads [NewPayloads npEmpty] = [0]
    /\ expectedPayloads [NewPayloads npLast] = [MAX_BLOBS_PER_BLOCK]
    /\ expectedPayloads (BlobsBaseSpec.BlobTestSequence bs)
       = [TARGET_BLOBS_PER_BLOCK]
         ++ replicate full MAX_BLOBS_PER_BLOCK ++ [0] ++ [MAX_BLOBS_PER_BLOCK]
    /\ (MAX_BLOBS_PER_BLOCK - TARGET_BLOBS_PER_BLOCK <= EXCEED_BLOBS ->
        SendBlobTransactions.BlobTransactionSendCount send2 = Z.of_nat full + 1).
Proof.
  pose proof EXCEED_BLOBS_range as Hx.
  do 7 eexists.
  exists (Z.to_nat (if decide (EXCEED_BLOBS / 3 = 0) then 1 else EXCEED_BLOBS / 3)).
  split; [reflexivity|].
  split; [reflexivity|].
  split; [reflexivity|]. split; [reflexivity|]. split; [reflexivity|].
  split; [reflexivity|]. split; [reflexivity|]. split; [reflexivity|].
  cbn [SendBlobTransactions.BlobTransactionSendCount].
  change (u64 (MAX_BLOBS_PER_BLOCK - TARGET_BLOBS_PER_BLOCK)) with 3.
  change (MAX_BLOBS_PER_BLOCK - TARGET_BLOBS_PER_BLOCK) with 3.
  assert (Hdiv : 0 <= EXCEED_BLOBS / 3 < 2 ^ 64 - 1).
  { split; [apply Z.div_pos; lia|]. apply Z.div_lt_upper_bound; lia. }
  assert (Hcount : u64 (EXCEED_BLOBS / 3 + 1) = EXCEED_BLOBS / 3 + 1).
  { unfold u64. apply Z.mod_small. lia. }
  rewrite Hcount.
  split.
  { pose proof (Z.mod_pos_bound EXCEED_BLOBS 3 ltac:(lia)).
    pose proof (Z.div_mod EXCEED_BLOBS 3 ltac:(lia)). lia. }
  split.
  { case_decide; lia. }
  unfold expectedPayloads, GetPayloadCount. cbn [flat_map NewPayloads.PayloadCount
    NewPayloads.ExpectedIncludedBlobCount BlobsBaseSpec.BlobTestSequence].
  change (u64 (MAX_BLOBS_PER_BLOCK - TARGET_BLOBS_PER_BLOCK)) with 3.
  rewrite !app_nil_r. repeat split; try reflexivity.
  intros Hge.
  assert (1 <= EXCEED_BLOBS / 3) by (apply Z.div_le_lower_bound; lia).
  case_decide; lia.
Qed.

End TableTheory.

(** The payloads that the capacity-rollover scenario expects do not start
    with a full one: with the price rising at 18 excess blobs they are one
    payload of 3 blobs, six of 6, one of none and one of 6, which is not
    of the shape "one or more full, one empty, one full". *)
Lemma capacity_rollover_starts_with_target_payload :
  exists bs,
    findSpec "Blob Transactions On Block 1, Cancun Genesis"
      (Tests blobListFrom (fun _ => 18)) = Some bs
    /\ expectedPayloads (BlobsBaseSpec.BlobTestSequence bs)
       = [3; 6; 6; 6; 6; 6; 6; 0; 6]
    /\ ~ (exists full : nat,
            (1 <= full)%nat
            /\ expectedPayloads (BlobsBaseSpec.BlobTestSequence bs)
               = replicate full MAX_BLOBS_PER_BLOCK ++ [0] ++ [MAX_BLOBS_PER_BLOCK]).
Proof.
  exists (hd demoSpec (Tests blobListFrom (fun _ => 18))).
  split; [vm_compute; reflexivity|].
  assert (Hseq : expectedPayloads
            (BlobsBaseSpec.BlobTestSequence
               (hd demoSpec (Tests blobListFrom (fun _ => 18))))
          = [3; 6; 6; 6; 6; 6; 6; 0; 6]) by (vm_compute; reflexivity).
  split; [exact Hseq|].
  intros (full & Hfull & Heq).
  rewrite Hseq in Heq.
  destruct full as [|full]; [lia|].
  change MAX_BLOBS_PER_BLOCK with 6 in Heq. cbn in Heq. discriminate Heq.
Qed.

(* ===================================================================== *)
(** * Further properties                                                  *)
(* ===================================================================== *)

(** ** [VersionedHashesFromBlobBundle] *)

(** The two results exclude each other: with an error the hash list
    is nil, with a hash list the error is nil, and one of the two is
    always there. *)
Lemma VersionedHashesFromBlobBundle_hashes_xor_error
    (Sum256 : list byte -> list byte) (bb : option api.BlobsBundle) (v : byte) :
  let result := helper.VersionedHashesFromBlobBundle Sum256 bb v in
  (is_Some (snd result) <-> fst result = None)
  /\ (is_Some (fst result) <-> snd result = None).
Proof.
  cbn zeta. unfold helper.VersionedHashesFromBlobBundle.
  destruct bb as [b|]; [destruct (api.Commitments b)|]; cbn;
    (split; split; intros H; try reflexivity; try discriminate;
     try (destruct H; discriminate); try (eexists; reflexivity)).
Qed.

(** X1: every hash returned is 32 bytes long, whatever the length of the
    digests that the hash function returns. *)
Theorem VersionedHashesFromBlobBundle_hash_length
    (Sum256 : list byte -> list byte) (bb : option api.BlobsBundle) (v : byte)
    (hashes : list common.Hash) :
  fst (helper.VersionedHashesFromBlobBundle Sum256 bb v) = Some hashes ->
  Forall (fun h => length h = 32%nat) hashes.
Proof.
  destruct bb as [b|]; [|discriminate].
  destruct (api.Commitments b) as [cs|] eqn:Hcs.
  - rewrite (VersionedHashesFromBlobBundle_map Sum256 b cs v Hcs).
    cbn. intros [= <-].
    apply Forall_fmap, Forall_forall. intros c _.
    exact (BytesToHash_length _).
  - unfold helper.VersionedHashesFromBlobBundle. rewrite Hcs. discriminate.
Qed.

Lemma VersionedHashesFromBlobBundle_hash_length_witness :
  Forall (fun h => length h = 32%nat)
    [helper.versionedHash (fun _ => [xab]) x01 [x00];
     helper.versionedHash (fun _ => [xab]) x01 []].
Proof.
  apply (VersionedHashesFromBlobBundle_hash_length (fun _ => [xab])
           (Some {| api.Commitments := Some [[x00]; []];
                    api.Blobs := None; api.Proofs := None |}) x01).
  reflexivity.
Defined.

(** X2: the version byte decides the first byte of every hash and nothing
    else: two calls on the same commitments with different version bytes
    return lists that agree once the first byte of each hash is dropped. *)
Theorem VersionedHashesFromBlobBundle_version_only_first_byte
    (Sum256 : list byte -> list byte)
    (Sum256_len : forall m, length (Sum256 m) = 32%nat)
    (bb : api.BlobsBundle) (commitments : list (list byte)) (v v' : byte) :
  api.Commitments bb = Some commitments ->
  exists hashes hashes',
    helper.VersionedHashesFromBlobBundle Sum256 (Some bb) v = (Some hashes, None)
    /\ helper.VersionedHashesFromBlobBundle Sum256 (Some bb) v' = (Some hashes', None)
    /\ map (drop 1) hashes = map (drop 1) hashes'
    /\ Forall (fun h => h !! 0%nat = Some v) hashes
    /\ Forall (fun h => h !! 0%nat = Some v') hashes'.
Proof.
  intros Hcs. do 2 eexists.
  split; [apply VersionedHashesFromBlobBundle_map, Hcs|].
  split; [apply VersionedHashesFromBlobBundle_map, Hcs|].
  split; [|split].
  - rewrite !map_map. apply map_ext. intros c. cbn beta.
    rewrite !(versionedHash_eq Sum256 Sum256_len). reflexivity.
  - apply Forall_fmap, Forall_forall. intros c _. cbn beta.
    unfold compose. rewrite (versionedHash_eq Sum256 Sum256_len). reflexivity.
  - apply Forall_fmap, Forall_forall. intros c _. cbn beta.
    unfold compose. rewrite (versionedHash_eq Sum256 Sum256_len). reflexivity.
Qed.

Lemma VersionedHashesFromBlobBundle_version_only_first_byte_witness :
  exists hashes hashes',
    helper.VersionedHashesFromBlobBundle sha256.Sum256
      (Some {| api.Commitments := Some [[x01; x02]; [x03]];
               api.Blobs := None; api.Proofs := None |}) x01
    = (Some hashes, None)
    /\ helper.VersionedHashesFromBlobBundle sha256.Sum256
         (Some {| api.Commitments := Some [[x01; x02]; [x03]];
                  api.Blobs := None; api.Proofs := None |}) x02
       = (Some hashes', None)
    /\ map (drop 1) hashes = map (drop 1) hashes'
    /\ Forall (fun h => h !! 0%nat = Some x01) hashes
    /\ Forall (fun h => h !! 0%nat = Some x02) hashes'.
Proof.
  apply (VersionedHashesFromBlobBundle_version_only_first_byte
           sha256.Sum256 Sum256_length _ [[x01; x02]; [x03]] x01 x02).
  reflexivity.
Defined.

(** X3: each hash depends on its own commitment only: the hashes of a
    commitments list that is the concatenation of two lists are the
    hashes of the first followed by the hashes of the second. *)
Theorem VersionedHashesFromBlobBundle_app
    (Sum256 : list byte -> list byte) (b1 b2 b : api.BlobsBundle)
    (cs1 cs2 : list (list byte)) (v : byte) :
  api.Commitments b1 = Some cs1 ->
  api.Commitments b2 = Some cs2 ->
  api.Commitments b = Some (cs1 ++ cs2) ->
  exists h1 h2,
    helper.VersionedHashesFromBlobBundle Sum256 (Some b1) v = (Some h1, None)
    /\ helper.VersionedHashesFromBlobBundle Sum256 (Some b2) v = (Some h2, None)
    /\ helper.VersionedHashesFromBlobBundle Sum256 (Some b) v = (Some (h1 ++ h2), None).
Proof.
  intros H1 H2 H12. do 2 eexists.
  rewrite (VersionedHashesFromBlobBundle_map _ _ _ _ H1),
          (VersionedHashesFromBlobBundle_map _ _ _ _ H2),
          (VersionedHashesFromBlobBundle_map _ _ _ _ H12).
  rewrite map_app. repeat split.
Qed.

Lemma VersionedHashesFromBlobBundle_app_witness :
  exists h1 h2,
    helper.VersionedHashesFromBlobBundle sha256.Sum256
      (Some {| api.Commitments := Some [[x01]]; api.Blobs := None; api.Proofs := None |}) x01
    = (Some h1, None)
    /\ helper.VersionedHashesFromBlobBundle sha256.Sum256
         (Some {| api.Commitments := Some [[x02]; [x03]];
                  api.Blobs := None; api.Proofs := None |}) x01
       = (Some h2, None)
    /\ helper.VersionedHashesFromBlobBundle sha256.Sum256
         (Some {| api.Commitments := Some [[x01]; [x02]; [x03]];
                  api.Blobs := None; api.Proofs := None |}) x01
       = (Some (h1 ++ h2), None).
Proof.
  apply (VersionedHashesFromBlobBundle_app sha256.Sum256 _ _ _ [[x01]] [[x02]; [x03]] x01);
    reflexivity.
Defined.

(** The blobs and the proofs of the bundle are never read: bundles
    with the same commitments get the same result, also when their blobs
    or proofs are nil or differ in number from the commitments. *)
Lemma VersionedHashesFromBlobBundle_commitments_only
    (Sum256 : list byte -> list byte) (bb bb' : api.BlobsBundle) (v : byte) :
  api.Commitments bb = api.Commitments bb' ->
  helper.VersionedHashesFromBlobBundle Sum256 (Some bb) v
  = helper.VersionedHashesFromBlobBundle Sum256 (Some bb') v.
Proof.
  intros Heq. unfold helper.VersionedHashesFromBlobBundle. rewrite Heq. reflexivity.
Qed.

(** ** [TestBlobTxPool] *)

Lemma poolLookup_add pool tx hash :
  poolLookup {| Transactions :=
                  Some (<[e_typ.Hash tx := tx]> (default ∅ (Transactions pool))) |} hash
  = if decide (e_typ.Hash tx = hash) then Some tx else poolLookup pool hash.
Proof.
  unfold poolLookup, map_index. cbn. rewrite lookup_insert.
  case_decide; [reflexivity|].
  destruct pool as [[m|]]; cbn; [reflexivity|apply lookup_empty].
Qed.

(** X4: transactions with different hashes can be added in either order:
    the pool ends up the same. *)
Theorem AddBlobTransaction_commute
    (pool : TestBlobTxPool) (tx1 tx2 : e_typ.Transaction) :
  e_typ.Hash tx1 <> e_typ.Hash tx2 ->
  addAll pool [tx1; tx2] = addAll pool [tx2; tx1].
Proof.
  intros Hne. cbn [addAll].
  repeat (rewrite AddBlobTransaction_eq; cbn [Transactions default from_option id]).
  rewrite insert_insert_ne by congruence. reflexivity.
Qed.

Lemma AddBlobTransaction_commute_witness :
  addAll new_TestBlobTxPool [localTx; otherTx]
  = addAll new_TestBlobTxPool [otherTx; localTx].
Proof.
  apply AddBlobTransaction_commute. vm_compute. discriminate.
Defined.

(** X5: the pool never shrinks and never drops a hash: after a call it
    holds one transaction more when the hash was not stored, as many as
    before when it was, and every hash stored before is stored still. *)
Theorem AddBlobTransaction_size
    (pool : TestBlobTxPool) (tx : e_typ.Transaction) :
  exists pool',
    AddBlobTransaction pool tx = Some pool'
    /\ poolSize pool'
       = match poolLookup pool (e_typ.Hash tx) with
         | Some _ => poolSize pool
         | None => S (poolSize pool)
         end
    /\ forall hash, is_Some (poolLookup pool hash) -> is_Some (poolLookup pool' hash).
Proof.
  rewrite AddBlobTransaction_eq. eexists. split; [reflexivity|]. split.
  - unfold poolSize, poolLookup, map_index. cbn.
    destruct pool as [[m|]]; cbn.
    + destruct (m !! e_typ.Hash tx) eqn:Hl.
      * rewrite map_size_insert_Some; [reflexivity|eauto].
      * rewrite map_size_insert_None by assumption. reflexivity.
    + rewrite map_size_insert_None by apply lookup_empty.
      rewrite map_size_empty. reflexivity.
  - intros hash Hs. rewrite poolLookup_add. case_decide; [eauto|assumption].
Qed.

(** X6: after the transactions of a list have been added in order, a
    hash leads to the last transaction of the list that has this hash,
    and to what the pool held before if the list has none. *)
Theorem addAll_lookup_last
    (txs : list e_typ.Transaction) (pool : TestBlobTxPool) (hash : common.Hash) :
  exists pool',
    addAll pool txs = Some pool'
    /\ poolLookup pool' hash
       = match last (filter (fun tx => e_typ.Hash tx = hash) txs) with
         | Some tx => Some tx
         | None => poolLookup pool hash
         end.
Proof.
  revert pool. induction txs as [|tx txs IH]; intros pool.
  - exists pool. split; reflexivity.
  - cbn [addAll]. rewrite AddBlobTransaction_eq.
    destruct (IH {| Transactions :=
                      Some (<[e_typ.Hash tx := tx]> (default ∅ (Transactions pool))) |})
      as (pool' & Hadd & Hl).
    exists pool'. split; [exact Hadd|]. rewrite Hl, poolLookup_add.
    rewrite filter_cons. case_decide as Hh.
    + rewrite last_cons. destruct (last _); reflexivity.
    + destruct (last _); reflexivity.
Qed.

(** A resubmitted hash: the pool keeps the later transaction. *)
Example addAll_lookup_last_example :
  exists pool',
    addAll new_TestBlobTxPool [fetchedTxNonce8; otherTx; localTx] = Some pool'
    /\ poolLookup pool' (e_typ.Hash localTx) = Some localTx
    /\ poolSize pool' = 2%nat.
Proof. eexists. split; [reflexivity|]. split; vm_compute; reflexivity. Qed.

(** ** [VerifyTransactionFromNode] *)

Lemma Cmp_refl x : big.Cmp x x = 0.
Proof. unfold big.Cmp. rewrite Z.compare_refl. reflexivity. Qed.

Lemma fieldCheck_same Hex f hash tx :
  fieldCheck Hex f (withHash hash tx) tx = false.
Proof.
  destruct f; cbn [fieldCheck withHash e_typ.Nonce e_typ.Gas e_typ.GasPrice
    e_typ.Value e_typ.To e_typ.Data e_typ.AccessList e_typ.ChainId e_typ.BlobGas
    e_typ.GasFeeCap e_typ.GasTipCap e_typ.BlobGasFeeCap e_typ.BlobHashes e_typ.Type_];
    rewrite ?Cmp_refl;
    try (apply bool_decide_eq_false; intros H; apply H; reflexivity).
  - destruct (e_typ.To tx); cbn; [|reflexivity].
    apply bool_decide_eq_false. intros H; apply H; reflexivity.
  - destruct (e_typ.Data tx); cbn; [|reflexivity].
    rewrite bool_decide_eq_true_2; reflexivity.
  - destruct (e_typ.AccessList tx); cbn; [|reflexivity].
    rewrite bool_decide_eq_true_2; reflexivity.
  - destruct (e_typ.BlobHashes tx); cbn; [|reflexivity].
    rewrite bool_decide_eq_true_2; reflexivity.
Qed.

Lemma fieldCheck_sym Hex f returnedTx tx :
  fieldCheck Hex f returnedTx tx = fieldCheck Hex f tx returnedTx.
Proof.
  destruct f; cbn [fieldCheck];
    try (apply bool_decide_ext; rewrite ?Cmp_nonzero; split; congruence).
  - destruct (e_typ.To returnedTx), (e_typ.To tx); cbn; try reflexivity.
    apply bool_decide_ext; split; congruence.
  - destruct (e_typ.Data returnedTx), (e_typ.Data tx); cbn; try reflexivity.
    f_equal. apply bool_decide_ext; split; congruence.
  - destruct (e_typ.AccessList returnedTx), (e_typ.AccessList tx); cbn; try reflexivity.
    f_equal. apply bool_decide_ext; split; congruence.
  - destruct (e_typ.BlobHashes returnedTx), (e_typ.BlobHashes tx); cbn; try reflexivity.
    f_equal. apply bool_decide_ext; split; congruence.
Qed.

(** X7: a node that returns the fields of the transaction as they were
    sent passes the verification, under whatever hash and pending flag it
    returns them, and for any rendering of addresses. *)
Theorem VerifyTransactionFromNode_same_fields
    (Hex : common.Address -> string) (eth : client.Eth)
    (tx : e_typ.Transaction) (hash : common.Hash) (pending : bool) :
  client.TransactionByHash eth (e_typ.Hash tx) = inl (withHash hash tx, pending) ->
  VerifyTransactionFromNode Hex eth tx = None.
Proof.
  intros Hnode. rewrite VerifyTransactionFromNode_eq, Hnode.
  rewrite compareTxFields_checks. apply firstError_None.
  intros f _. apply fieldCheck_same.
Qed.

Lemma VerifyTransactionFromNode_same_fields_witness :
  VerifyTransactionFromNode plainHex demoEth localTx = None.
Proof.
  apply (VerifyTransactionFromNode_same_fields plainHex demoEth localTx
           (e_typ.Hash localTx) true).
  reflexivity.
Defined.

(** X8: the verdict does not depend on which of the two transactions is
    the fetched one: the comparison returns nil one way round exactly when
    it returns nil the other way round. *)
Theorem compareTxFields_verdict_symmetric
    (Hex : common.Address -> string) (returnedTx tx : e_typ.Transaction) :
  compareTxFields Hex returnedTx tx = None
  <-> compareTxFields Hex tx returnedTx = None.
Proof.
  rewrite !compareTxFields_checks, !firstError_None.
  split; intros Hall f Hf; [rewrite <- fieldCheck_sym | rewrite fieldCheck_sym];
    apply Hall, Hf.
Qed.

(** An error names the same field either way, with the operands swapped. *)
Lemma compareTxFields_error_symmetric Hex returnedTx tx err :
  compareTxFields Hex returnedTx tx = Some err ->
  exists f, err = mismatchReport Hex f returnedTx tx
            /\ compareTxFields Hex tx returnedTx = Some (mismatchReport Hex f tx returnedTx).
Proof.
  rewrite !compareTxFields_checks. intros Herr.
  apply firstError_Some in Herr as (pre & f & post & Heq & Hpre & Hf & ->).
  exists f. split; [reflexivity|]. apply firstError_Some.
  exists pre, f, post. split; [exact Heq|].
  split; [intros g Hg; rewrite fieldCheck_sym; auto|].
  split; [rewrite fieldCheck_sym; exact Hf | reflexivity].
Qed.

(** The hashes of the two transactions and the pending flag are
    never compared: against a node that returns the same fields under
    another hash and flag, the verification gives the same result. *)
Lemma VerifyTransactionFromNode_ignores_hash_and_pending
    (Hex : common.Address -> string) (eth eth' : client.Eth)
    (tx returnedTx : e_typ.Transaction) (hash : common.Hash) (pending pending' : bool) :
  client.TransactionByHash eth (e_typ.Hash tx) = inl (returnedTx, pending) ->
  client.TransactionByHash eth' (e_typ.Hash tx) = inl (withHash hash returnedTx, pending') ->
  VerifyTransactionFromNode Hex eth tx = VerifyTransactionFromNode Hex eth' tx.
Proof.
  intros Hnode Hnode'. rewrite !VerifyTransactionFromNode_eq, Hnode, Hnode'.
  reflexivity.
Qed.

(** X9: the whole function: an error of the node is returned as it is,
    without any comparison; when the node returns a transaction, nil is
    returned exactly when no field differs with both sides set. *)
Theorem VerifyTransactionFromNode_contract
    (Hex : common.Address -> string)
    (Hex_inj : forall a b, Hex a = Hex b -> a = b)
    (eth : client.Eth) (tx : e_typ.Transaction) :
  match client.TransactionByHash eth (e_typ.Hash tx) with
  | inr err => VerifyTransactionFromNode Hex eth tx = Some err
  | inl (returnedTx, _) =>
      VerifyTransactionFromNode Hex eth tx = None
      <-> forall f, ~ (fieldDiffers f returnedTx tx /\ fieldSet f returnedTx tx)
  end.
Proof.
  rewrite VerifyTransactionFromNode_eq.
  destruct (client.TransactionByHash eth (e_typ.Hash tx)) as [[returnedTx pending]|err];
    [|reflexivity].
  rewrite compareTxFields_checks, firstError_None. split.
  - intros Hall f. apply (fieldCheck_false Hex Hex_inj), Hall, txFields_all.
  - intros Hall f _. apply (fieldCheck_false Hex Hex_inj), Hall.
Qed.

Lemma VerifyTransactionFromNode_contract_witness :
  VerifyTransactionFromNode plainHex demoEth otherTx = Some (errors_New "not found").
Proof.
  exact (VerifyTransactionFromNode_contract plainHex plainHex_inj demoEth otherTx).
Defined.

(** ** [BlobsBaseSpec.Execute] *)

Lemma i64_small z : - 2 ^ 63 <= z < 2 ^ 63 -> i64 z = z.
Proof.
  unfold i64.
  change (2 ^ 63) with 9223372036854775808.
  change (2 ^ 64) with 18446744073709551616.
  intros Hz. rewrite Z.mod_small by lia. lia.
Qed.

(** A delay of [d] seconds, for [d] up to 9223372036, is written as
    [d * 10^9] nanoseconds. *)
Lemma newContext_delay_exact (bs : BlobsBaseSpec.t) (t : test.Env) :
  0 < BlobsBaseSpec.GetPayloadDelay bs <= 9223372036 ->
  test.PayloadProductionClientDelay
    (test.CLMock (BlobTestContext.Env (newContext bs t)))
  = BlobsBaseSpec.GetPayloadDelay bs * 10 ^ 9.
Proof.
  intros Hd. unfold newContext. case_decide; [|lia]. cbn.
  unfold time.Seconds, time.Second.
  rewrite (i64_small (BlobsBaseSpec.GetPayloadDelay bs))
    by (change (2 ^ 63) with 9223372036854775808; lia).
  rewrite i64_small by (change (2 ^ 63) with 9223372036854775808; lia).
  change (10 ^ 9) with 1000000000. reflexivity.
Qed.

(** The pool of the first context is empty, whatever the delay. *)
Lemma newContext_pool bs t :
  BlobTestContext.TestBlobTxPool (newContext bs t) = new_TestBlobTxPool.
Proof. unfold newContext. case_decide; reflexivity. Qed.

(** A scenario without a delay leaves the environment as it is; one
    second more than the bound wraps to a negative duration. *)
Lemma newContext_no_delay bs t :
  BlobsBaseSpec.GetPayloadDelay bs = 0 ->
  newContext bs t
  = {| BlobTestContext.Env := t;
       BlobTestContext.TestBlobTxPool := new_TestBlobTxPool |}.
Proof. intros Hd. unfold newContext. case_decide; [congruence|reflexivity]. Qed.

Example Seconds_overflow : time.Seconds 9223372037 = -9223372036709551616.
Proof. reflexivity. Qed.

(** X10: once the network is ready, [Execute] is the step loop from step
    1 on a first context whose pool is empty, whatever the scenario's
    delay.  With no delay the environment of that context is the one that
    the wait returned; a delay of [d] seconds, for [d] up to 9223372036,
    is written to the mock as [d * 10^9] nanoseconds. *)
Theorem Execute_first_context
    (Description : TestStep -> string)
    (stepExecute : TestStep -> BlobTestContext.t -> BlobTestContext.t * option error)
    (WaitForTTD : test.Env -> option test.Env)
    (bs : BlobsBaseSpec.t) (t t1 : test.Env) :
  WaitForTTD t = Some t1 ->
  exists ctx0,
    Execute Description stepExecute WaitForTTD bs t
    = (let '(events, ctx, outcome) :=
         rangeSteps Description stepExecute 0 (BlobsBaseSpec.BlobTestSequence bs) ctx0 in
       (events, Some ctx, outcome))
    /\ BlobTestContext.TestBlobTxPool ctx0 = new_TestBlobTxPool
    /\ Transactions (BlobTestContext.TestBlobTxPool ctx0) = None
    /\ (BlobsBaseSpec.GetPayloadDelay bs = 0 -> BlobTestContext.Env ctx0 = t1)
    /\ (0 < BlobsBaseSpec.GetPayloadDelay bs <= 9223372036 ->
        test.PayloadProductionClientDelay (test.CLMock (BlobTestContext.Env ctx0))
        = BlobsBaseSpec.GetPayloadDelay bs * 10 ^ 9).
Proof.
  intros Hready. exists (newContext bs t1).
  split; [unfold Execute; rewrite Hready; reflexivity|].
  split; [apply newContext_pool|].
  split; [rewrite newContext_pool; reflexivity|].
  split.
  - intros Hd. rewrite (newContext_no_delay bs t1 Hd). reflexivity.
  - apply newContext_delay_exact.
Qed.

(** On [demoSpec], whose delay is 2 seconds, and on the same scenario
    without a delay. *)
Lemma Execute_first_context_witness :
  exists ctx0,
    Execute demoDescription demoExecute Some demoSpec demoEnv
    = (let '(events, ctx, outcome) :=
         rangeSteps demoDescription demoExecute 0
           (BlobsBaseSpec.BlobTestSequence demoSpec) ctx0 in
       (events, Some ctx, outcome))
    /\ BlobTestContext.TestBlobTxPool ctx0 = new_TestBlobTxPool
    /\ test.PayloadProductionClientDelay (test.CLMock (BlobTestContext.Env ctx0))
       = 2 * 10 ^ 9.
Proof.
  destruct (Execute_first_context demoDescription demoExecute Some demoSpec
              demoEnv demoEnv eq_refl) as (ctx0 & Hrun & Hpool & _ & _ & Hdelay).
  exists ctx0. split; [exact Hrun|]. split; [exact Hpool|].
  apply Hdelay. cbn. lia.
Defined.

Section MoreExecuteTheory.

Variable Description : TestStep -> string.
Variable stepExecute :
  TestStep -> BlobTestContext.t -> BlobTestContext.t * option error.

(** X11: the loop composes: when the steps of [pre] all succeed, running
    [pre ++ post] is running [pre] and then [post], numbered on from where
    [pre] ends, in the context that [pre] leaves. *)
Theorem rangeSteps_app (pre post : BlobTestSequence) (i : nat)
    (ctx ctx1 : BlobTestContext.t) :
  succeed stepExecute pre ctx ctx1 ->
  rangeSteps Description stepExecute i (pre ++ post) ctx
  = (let '(events, ctx2, outcome) :=
       rangeSteps Description stepExecute (i + length pre) post ctx1 in
     (stepEvents Description i pre ++ events, ctx2, outcome)).
Proof.
  revert i ctx. induction pre as [|s pre IH]; intros i ctx Hok;
    inversion Hok; subst; cbn [app length stepEvents].
  - rewrite Nat.add_0_r. destruct (rangeSteps _ _ _ _ _) as [[? ?] ?]. reflexivity.
  - cbn [rangeSteps].
    match goal with H : stepExecute s _ = _ |- _ => rewrite H end.
    rewrite (IH (S i) _ ltac:(eassumption)).
    replace (S i + length pre)%nat with (i + S (length pre))%nat by lia.
    destruct (rangeSteps _ _ _ _ _) as [[? ?] ?]. reflexivity.
Qed.

(** X12: a failure is final: when a run of [pre] ends in the fatal
    failure, steps appended after [pre] change nothing of the run: none
    of them is executed or logged. *)
Theorem rangeSteps_failure_final (pre post : BlobTestSequence) (i : nat)
    (ctx ctx' : BlobTestContext.t) (events : list Event) :
  rangeSteps Description stepExecute i pre ctx = (events, ctx', FailedNow) ->
  rangeSteps Description stepExecute i (pre ++ post) ctx = (events, ctx', FailedNow).
Proof.
  revert i ctx events. induction pre as [|s pre IH]; intros i ctx events.
  - cbn. discriminate.
  - cbn [app rangeSteps].
    destruct (stepExecute s ctx) as [c [err|]]; [auto|].
    destruct (rangeSteps Description stepExecute (S i) pre c) as [[ev c'] o] eqn:Hrun.
    intros [= <- <- ->]. rewrite (IH _ _ _ Hrun). reflexivity.
Qed.

Lemma stepEvents_no_Fatalf i steps :
  filter (fun ev => isFatalf ev = true) (stepEvents Description i steps) = [].
Proof.
  revert i. induction steps as [|s steps IH]; intros i; cbn [stepEvents];
    [reflexivity|].
  rewrite !filter_cons. cbn [isFatalf].
  case_decide; [discriminate|]. apply IH.
Qed.

Lemma stepEvents_counts i steps :
  length (filter (fun ev => isLogf ev = true) (stepEvents Description i steps))
  = length steps
  /\ length (filter (fun ev => isStepExecute ev = true) (stepEvents Description i steps))
     = length steps.
Proof.
  revert i. induction steps as [|s steps IH]; intros i; cbn [stepEvents length];
    [split; reflexivity|].
  destruct (IH (S i)) as [IHl IHs].
  rewrite !filter_cons. cbn [isLogf isStepExecute].
  repeat (case_decide; try discriminate; try congruence).
  cbn [length]. rewrite IHl, IHs. split; reflexivity.
Qed.

(** X13: in every run, each executed step has its log line, and the
    fatal report is made once, at the end, exactly when the run fails:
    a run that returns has no fatal report. *)
Theorem rangeSteps_events_shape (steps : BlobTestSequence) (i : nat)
    (ctx : BlobTestContext.t) :
  let '(events, _, outcome) := rangeSteps Description stepExecute i steps ctx in
  length (filter (fun ev => isLogf ev = true) events)
  = length (filter (fun ev => isStepExecute ev = true) events)
  /\ (length (filter (fun ev => isLogf ev = true) events) <= length steps)%nat
  /\ match outcome with
     | Returned => filter (fun ev => isFatalf ev = true) events = []
     | FailedNow =>
         exists before format stepNo err,
           events = before ++ [Fatalf format stepNo err]
           /\ filter (fun ev => isFatalf ev = true) before = []
     end.
Proof.
  destruct (succeed_or_first_failure stepExecute steps ctx)
    as [[ctx' Hok]|(pre & step & post & c1 & c2 & err & -> & Hok & Hf)].
  - rewrite (rangeSteps_succeed Description stepExecute steps i _ _ Hok).
    destruct (stepEvents_counts i steps) as [-> ->].
    repeat split; [lia|]. apply stepEvents_no_Fatalf.
  - rewrite (rangeSteps_fail Description stepExecute pre i step post _ _ _ _ Hok Hf).
    rewrite !filter_app, !length_app.
    destruct (stepEvents_counts i (pre ++ [step])) as [-> ->]. cbn.
    repeat (case_decide; try discriminate).
    rewrite !length_app. cbn. repeat split; [lia|].
    do 4 eexists. split; [reflexivity|]. apply stepEvents_no_Fatalf.
Qed.

End MoreExecuteTheory.

Lemma rangeSteps_app_witness :
  rangeSteps demoDescription demoExecute 0 ([demoLaunch] ++ [demoPayload; demoModified])
    (newContext demoSpec demoEnv)
  = (let '(events, ctx2, outcome) :=
       rangeSteps demoDescription demoExecute 1 [demoPayload; demoModified]
         (newContext demoSpec demoEnv) in
     (stepEvents demoDescription 0 [demoLaunch] ++ events, ctx2, outcome)).
Proof.
  apply (rangeSteps_app demoDescription demoExecute [demoLaunch]
           [demoPayload; demoModified] 0).
  econstructor; [reflexivity|constructor].
Defined.

Lemma rangeSteps_failure_final_witness :
  rangeSteps demoDescription demoExecute 0
    ([demoLaunch; demoModified] ++ [demoPayload; demoPayload])
    (newContext demoSpec demoEnv)
  = ([ Logf "INFO: Executing step %d: %s" 1 "LaunchClients";
       StepExecute 0 demoLaunch;
       Logf "INFO: Executing step %d: %s" 2 "SendModifiedLatestPayload";
       StepExecute 1 demoModified;
       Fatalf "FAIL: Error executing step %d: %v" 2 (errors_New "unexpected status") ],
     newContext demoSpec demoEnv, FailedNow).
Proof.
  apply (rangeSteps_failure_final demoDescription demoExecute
           [demoLaunch; demoModified] [demoPayload; demoPayload] 0).
  reflexivity.
Defined.

(** ** The test table *)

Lemma clientsRunning_sound seq : forall launched,
  clientsRunning launched seq = true ->
  forall pre step post,
    seq = pre ++ step :: post ->
    0 <= stepClient step
      <= launched + Z.of_nat (length (filter (fun s => isLaunch s = true) pre)).
Proof.
  induction seq as [|s seq IH]; intros launched Hrun pre step post Heq.
  - destruct pre; discriminate.
  - cbn [clientsRunning] in Hrun. apply andb_true_iff in Hrun as [Hs Hrest].
    apply bool_decide_eq_true in Hs.
    destruct pre as [|p pre]; cbn in Heq; injection Heq as <- ->.
    + cbn. lia.
    + specialize (IH _ Hrest pre step post eq_refl).
      rewrite filter_cons. destruct (isLaunch s); case_decide; try congruence;
        cbn [length]; lia.
Qed.

Lemma replacesAfterSend_sound seq : forall sent,
  replacesAfterSend sent seq = true ->
  forall pre s post,
    seq = pre ++ SendBlobTransactions s :: post ->
    SendBlobTransactions.ReplaceTransactions s = true ->
    SendBlobTransactions.AccountIndex s ∈ sent
    \/ exists s', SendBlobTransactions s' ∈ pre
                  /\ SendBlobTransactions.AccountIndex s'
                     = SendBlobTransactions.AccountIndex s.
Proof.
  induction seq as [|step seq IH]; intros sent Hrun pre s post Heq Hrep.
  - destruct pre; discriminate.
  - destruct pre as [|p pre]; cbn in Heq; injection Heq as Hstep Hseq; subst step.
    + cbn [replacesAfterSend] in Hrun. apply andb_true_iff in Hrun as [Hs _].
      rewrite Hrep in Hs. cbn in Hs. apply bool_decide_eq_true in Hs. auto.
    + destruct p as [s0| | |]; cbn [replacesAfterSend] in Hrun.
      * apply andb_true_iff in Hrun as [_ Hrest].
        destruct (IH _ Hrest pre s post Hseq Hrep) as [Hin|(s' & Hin & Hacc)].
        -- apply elem_of_cons in Hin as [Hacc|Hin]; [|auto].
           right. exists s0. split; [constructor|congruence].
        -- right. exists s'. split; [now constructor|exact Hacc].
      * destruct (IH _ Hrun pre s post Hseq Hrep) as [Hin|(s' & Hin & Hacc)]; [auto|].
        right. exists s'. split; [now constructor|exact Hacc].
      * destruct (IH _ Hrun pre s post Hseq Hrep) as [Hin|(s' & Hin & Hacc)]; [auto|].
        right. exists s'. split; [now constructor|exact Hacc].
      * destruct (IH _ Hrun pre s post Hseq Hrep) as [Hin|(s' & Hin & Hacc)]; [auto|].
        right. exists s'. split; [now constructor|exact Hacc].
Qed.

Section MoreTableTheory.

Variable GetBlobList : helper.BlobID -> Z -> option (list helper.BlobID).
Variable GetMinExcessDataBlobsForDataGasPrice : Z -> Z.

Local Abbreviation Tests :=
  (Tests GetBlobList GetMinExcessDataBlobsForDataGasPrice).

(** X14: no two scenarios of the table bear the same name: a name
    selects one scenario. *)
Theorem Tests_names_distinct :
  NoDup (map (fun bs => test.Name (BlobsBaseSpec.Spec bs)) Tests).
Proof.
  apply (bool_decide_unpack
           (NoDup (map (fun bs => test.Name (BlobsBaseSpec.Spec bs)) Tests))).
  vm_compute. exact I.
Qed.

(** X15: in every scenario each step addresses a client that runs when
    the step is reached: client 0, or client 1 after a [LaunchClients]
    step of the same scenario. *)
Theorem Tests_address_running_clients :
  Forall addressesRunningClients (map BlobsBaseSpec.BlobTestSequence Tests).
Proof.
  assert (Hall : forallb (fun bs => clientsRunning 0 (BlobsBaseSpec.BlobTestSequence bs))
                   Tests = true) by (vm_compute; reflexivity).
  rewrite forallb_forall in Hall.
  apply Forall_fmap, Forall_forall. intros bs Hbs pre step post Heq.
  apply (clientsRunning_sound _ 0 (Hall bs (proj1 (list_elem_of_In _ _) Hbs)) _ _ _ Heq).
Qed.

(** X16: in every scenario a send that replaces transactions comes after
    a send from the same account: there is a nonce to reuse. *)
Theorem Tests_replace_after_send :
  Forall replacesOnlyAfterSend (map BlobsBaseSpec.BlobTestSequence Tests).
Proof.
  assert (Hall : forallb (fun bs => replacesAfterSend [] (BlobsBaseSpec.BlobTestSequence bs))
                   Tests = true) by (vm_compute; reflexivity).
  rewrite forallb_forall in Hall.
  apply Forall_fmap, Forall_forall. intros bs Hbs pre s post Heq Hrep.
  destruct (replacesAfterSend_sound _ [] (Hall bs (proj1 (list_elem_of_In _ _) Hbs))
              _ _ _ Heq Hrep) as [Hin|Hex]; [|exact Hex].
  inversion Hin.
Qed.

(** X17: no payload of the table is expected to hold more blobs than a
    block may, and where a payload step lists the blobs it expects, they
    are as many as its expected count (the list of the first scenario is
    made by [GetBlobList], which returns [count] blobs). *)
Theorem Tests_payload_expectations :
  (forall startId count blobs,
      0 <= count ->
      GetBlobList startId count = Some blobs -> Z.of_nat (length blobs) = count) ->
  Forall (fun np =>
            0 <= NewPayloads.ExpectedIncludedBlobCount np <= MAX_BLOBS_PER_BLOCK
            /\ forall blobs, NewPayloads.ExpectedBlobs np = Some blobs ->
                 Z.of_nat (length blobs) = NewPayloads.ExpectedIncludedBlobCount np)
         (allPayloadSteps Tests).
Proof.
  intros HG.
  pose (proj := fun np => (NewPayloads.ExpectedIncludedBlobCount np,
                           NewPayloads.ExpectedBlobs np)).
  refine (proj1 (Forall_fmap proj (fun p : Z * option (list Z) =>
           0 <= fst p <= MAX_BLOBS_PER_BLOCK
           /\ forall blobs, snd p = Some blobs -> Z.of_nat (length blobs) = fst p) _) _).
  let l := eval vm_compute in (proj <$> allPayloadSteps Tests) in
  change (proj <$> allPayloadSteps Tests) with l.
  change MAX_BLOBS_PER_BLOCK with 6.
  repeat constructor; cbn [fst snd]; try lia;
    intros blobs Hb; try discriminate Hb;
    try (injection Hb as <-; reflexivity).
  eapply HG; [|exact Hb]. lia.
Qed.

(** X18: every send of the table states the data gas price it accepts,
    at least the minimal one, asks for no more blobs per transaction than
    a block may hold, and sets the fee cap and the tip cap together or
    not at all. *)
Theorem Tests_send_steps :
  Forall (fun s =>
            (exists cost, SendBlobTransactions.BlobTransactionMaxDataGasCost s = Some cost
                          /\ MIN_DATA_GASPRICE <= cost)
            /\ 0 <= SendBlobTransactions.BlobsPerTransaction s <= MAX_BLOBS_PER_BLOCK
            /\ (is_Some (SendBlobTransactions.BlobTransactionGasFeeCap s)
                <-> is_Some (SendBlobTransactions.BlobTransactionGasTipCap s)))
         (allSendSteps Tests).
Proof.
  pose (proj := fun s => (SendBlobTransactions.BlobTransactionMaxDataGasCost s,
                          SendBlobTransactions.BlobsPerTransaction s,
                          SendBlobTransactions.BlobTransactionGasFeeCap s,
                          SendBlobTransactions.BlobTransactionGasTipCap s)).
  refine (proj1 (Forall_fmap proj (fun p : option Z * Z * option Z * option Z =>
           (exists cost, fst (fst (fst p)) = Some cost /\ MIN_DATA_GASPRICE <= cost)
           /\ 0 <= snd (fst (fst p)) <= MAX_BLOBS_PER_BLOCK
           /\ (is_Some (snd (fst p)) <-> is_Some (snd p))) _) _).
  let l := eval vm_compute in (proj <$> allSendSteps Tests) in
  change (proj <$> allSendSteps Tests) with l.
  change MAX_BLOBS_PER_BLOCK with 6. change MIN_DATA_GASPRICE with 1.
  repeat (apply Forall_cons_2 || apply Forall_nil_2); cbn [fst snd];
    (split; [eexists; split; [reflexivity|lia]|]);
    (split; [lia|]);
    split; intros [x Hx]; try discriminate Hx; eexists; reflexivity.
Qed.

(** Every client that the table launches is kept out of the
    consensus-layer mock: the payloads are made by the first client. *)
Lemma Tests_launched_clients_not_in_CLMock :
  Forall (fun lc => LaunchClients.SkipAddingToCLMock lc = true) (allLaunchSteps Tests)
  /\ length (allLaunchSteps Tests) = 10%nat.
Proof.
  split; [|reflexivity].
  apply (bool_decide_unpack
           (Forall (fun lc => LaunchClients.SkipAddingToCLMock lc = true)
                   (allLaunchSteps Tests))).
  vm_compute. exact I.
Qed.

End MoreTableTheory.

Lemma Tests_payload_expectations_witness :
  Forall (fun np =>
            0 <= NewPayloads.ExpectedIncludedBlobCount np <= MAX_BLOBS_PER_BLOCK
            /\ forall blobs, NewPayloads.ExpectedBlobs np = Some blobs ->
                 Z.of_nat (length blobs) = NewPayloads.ExpectedIncludedBlobCount np)
         (allPayloadSteps (Tests blobListFrom (fun _ => 18))).
Proof.
  apply (Tests_payload_expectations blobListFrom (fun _ => 18)).
  intros startId count blobs Hcount [= <-]. rewrite length_seqZ. lia.
Defined.

